(** * Credential and record store of the health application

    A shallow embedding of [database.py] (the SQLite-backed credential,
    reset-token, prediction and patient-record routines) and of the two
    places of [app.py] that drive it: the quick-login submit handler and
    the paginated patient history.

    Conventions of the embedding.
    - Python text is a [string]; the character classes ([str.strip],
      [str.lower], the regular-expression classes [\w] and [\d]) are the
      ones Python uses on 7-bit text.
    - A Python call either returns or raises: [result].
    - The SQLite file is a record of tables, each a list of rows in rowid
      order.  A connection carries the committed image ([disk]) and the
      image of the open transaction ([txn]).
    - What the code reads from its environment (the clock, the operating
      system's random bytes, the salt of the password hasher, whether a
      statement fails in the driver) is an explicit argument.
    - Calls to [logging] are left out: they do not touch the data. *)

From Stdlib Require Import ZArith NArith Arith List String Ascii Bool Lia PrimFloat.
From Stdlib Require Import Strings.Byte Uint63 Sorted.
From Stdlib Require FloatOps SpecFloat.
Import ListNotations.
Local Open Scope string_scope.
Local Open Scope Z_scope.

Set Implicit Arguments.

(* ================================================================== *)
(** ** Python values, exceptions, results *)

Inductive exn : Type :=
| ValueError (msg : string)
| TypeError
| OverflowError
| IntegrityError
| OperationalError
| OSError
| VerifyMismatchError
| InvalidHashError
| RerunException
| SwitchPageException (page : string).

(** Streamlit's script-control exceptions derive from [BaseException]:
    an [except Exception] clause lets them through. *)
Definition is_Exception (e : exn) : bool :=
  match e with
  | RerunException | SwitchPageException _ => false
  | _ => true
  end.

Inductive result (A : Type) : Type :=
| Ok (a : A)
| Raise (e : exn).
Arguments Ok {A} a.
Arguments Raise {A} e.

(** The values the dynamically checked arguments range over. *)
Inductive pyval : Type :=
| PNone
| PBool (b : bool)
| PInt (z : Z)
| PFloat (f : float)
| PStr (s : string).

(** [isinstance(v, int)]: [bool] is a subclass of [int]. *)
Definition isinstance_int (v : pyval) : bool :=
  match v with PInt _ | PBool _ => true | _ => false end.

(** [isinstance(v, (int, float))]. *)
Definition isinstance_int_float (v : pyval) : bool :=
  match v with PInt _ | PBool _ | PFloat _ => true | _ => false end.

Definition isinstance_str (v : pyval) : bool :=
  match v with PStr _ => true | _ => false end.

Definition is_None (v : pyval) : bool :=
  match v with PNone => true | _ => false end.

Definition int_of_bool (b : bool) : Z := if b then 1 else 0.

(** [float(n)] for an integer that a double holds exactly. *)
Definition float_of_Z (z : Z) : float :=
  if z <? 0 then PrimFloat.opp (PrimFloat.of_uint63 (Uint63.of_Z (- z)))
  else PrimFloat.of_uint63 (Uint63.of_Z z).

(** [v < 0] on a number. *)
Definition num_lt_zero (v : pyval) : bool :=
  match v with
  | PInt z => z <? 0
  | PBool b => int_of_bool b <? 0
  | PFloat f => PrimFloat.ltb f PrimFloat.zero
  | _ => false
  end.

(** [0 <= v <= 100] on a number. *)
Definition num_in_0_100 (v : pyval) : bool :=
  match v with
  | PInt z => (0 <=? z) && (z <=? 100)
  | PBool b => true
  | PFloat f => PrimFloat.leb PrimFloat.zero f && PrimFloat.leb f 100%float
  | _ => false
  end.

(** [float(v)] on a number. *)
Definition py_float (v : pyval) : float :=
  match v with
  | PInt z => float_of_Z z
  | PBool b => float_of_Z (int_of_bool b)
  | PFloat f => f
  | _ => PrimFloat.nan
  end.

(* ================================================================== *)
(** ** Text: [strip], [lower], regular expressions *)

Definition in_range (lo hi : nat) (c : ascii) : bool :=
  (Nat.leb lo (nat_of_ascii c) && Nat.leb (nat_of_ascii c) hi)%bool.

(** [str.isspace] on 7-bit text: TAB..CR, FS..US and the space. *)
Definition is_space (c : ascii) : bool :=
  (in_range 9 13 c || in_range 28 32 c)%bool.

Definition is_digit (c : ascii) : bool := in_range 48 57 c.
Definition is_upper (c : ascii) : bool := in_range 65 90 c.
Definition is_lower (c : ascii) : bool := in_range 97 122 c.
Definition is_underscore (c : ascii) : bool := Ascii.eqb c "_".

(** The class [[a-zA-Z0-9_]], which is also [\w] on 7-bit text. *)
Definition is_word (c : ascii) : bool :=
  (is_lower c || is_upper c || is_digit c || is_underscore c)%bool.

Fixpoint lstrip (s : string) : string :=
  match s with
  | String c s' => if is_space c then lstrip s' else s
  | EmptyString => EmptyString
  end.

Fixpoint rstrip (s : string) : string :=
  match s with
  | String c s' =>
      match rstrip s' with
      | EmptyString => if is_space c then EmptyString else String c EmptyString
      | t => String c t
      end
  | EmptyString => EmptyString
  end.

(** [s.strip()] *)
Definition strip (s : string) : string := rstrip (lstrip s).

Definition lower_char (c : ascii) : ascii :=
  if is_upper c then ascii_of_nat (nat_of_ascii c + 32) else c.

(** [s.lower()] *)
Fixpoint lower (s : string) : string :=
  match s with
  | String c s' => String (lower_char c) (lower s')
  | EmptyString => EmptyString
  end.

(** [not s] on a string. *)
Definition str_empty (s : string) : bool :=
  match s with EmptyString => true | _ => false end.

(** Regular expressions, matched by derivatives. *)
Inductive regex : Type :=
| RNone
| REps
| RSet (p : ascii -> bool)
| RCat (r s : regex)
| RAlt (r s : regex)
| RStar (r : regex).

Fixpoint nullable (r : regex) : bool :=
  match r with
  | RNone => false
  | REps => true
  | RSet _ => false
  | RCat r s => nullable r && nullable s
  | RAlt r s => nullable r || nullable s
  | RStar _ => true
  end.

Fixpoint deriv (c : ascii) (r : regex) : regex :=
  match r with
  | RNone => RNone
  | REps => RNone
  | RSet p => if p c then REps else RNone
  | RCat r s =>
      if nullable r then RAlt (RCat (deriv c r) s) (deriv c s)
      else RCat (deriv c r) s
  | RAlt r s => RAlt (deriv c r) (deriv c s)
  | RStar r => RCat (deriv c r) (RStar r)
  end.

Fixpoint full_match (r : regex) (s : string) : bool :=
  match s with
  | EmptyString => nullable r
  | String c s' => full_match (deriv c r) s'
  end.

Definition RChr (c : ascii) : regex := RSet (Ascii.eqb c).
Definition RPlus (r : regex) : regex := RCat r (RStar r).
Fixpoint RRep (n : nat) (r : regex) : regex :=
  match n with O => REps | S n' => RCat r (RRep n' r) end.

(** [re.match('^' + r + '$', s)]: without [re.MULTILINE] the [$] stands
    at the end of the text or just before a newline that ends it. *)
Definition re_match_anchored (r : regex) (s : string) : bool :=
  full_match (RCat r (RAlt REps (RChr "010"))) s.

(** [^[a-zA-Z0-9_]+$] *)
Definition username_re : regex := RPlus (RSet is_word).

(** The class [[\w\.-]]. *)
Definition is_email_atom (c : ascii) : bool :=
  (is_word c || Ascii.eqb c "." || Ascii.eqb c "-")%bool.

(** [^[\w\.-]+@[\w\.-]+\.\w+$] *)
Definition email_re : regex :=
  RCat (RPlus (RSet is_email_atom))
    (RCat (RChr "@")
       (RCat (RPlus (RSet is_email_atom))
          (RCat (RChr ".") (RPlus (RSet is_word))))).

(** [^\d{4}-\d{2}-\d{2} \d{2}:\d{2}:\d{2}$] *)
Definition timestamp_re : regex :=
  let d := RSet is_digit in
  RCat (RRep 4 d) (RCat (RChr "-") (RCat (RRep 2 d) (RCat (RChr "-")
    (RCat (RRep 2 d) (RCat (RChr " ") (RCat (RRep 2 d) (RCat (RChr ":")
      (RCat (RRep 2 d) (RCat (RChr ":") (RRep 2 d)))))))))).


(* ================================================================== *)
(** ** The clock: [datetime], [timedelta], [strftime] *)

(** A naive [datetime], as the microseconds since 1970-01-01 00:00:00;
    a [timedelta] is a number of microseconds. *)
Definition datetime : Type := Z.
Definition timedelta : Type := Z.

Definition timedelta_hours (h : Z) : timedelta := h * 3600 * 1000000.
Definition timedelta_days (d : Z) : timedelta := d * 86400 * 1000000.
Definition timedelta_minutes (m : Z) : timedelta := m * 60 * 1000000.

(** Year, month and day of a day number (proleptic Gregorian calendar,
    day 0 is 1970-01-01). *)
Definition civil_from_days (days : Z) : Z * Z * Z :=
  let z := days + 719468 in
  let era := z / 146097 in
  let doe := z - era * 146097 in
  let yoe := (doe - doe / 1460 + doe / 36524 - doe / 146096) / 365 in
  let doy := doe - (365 * yoe + yoe / 4 - yoe / 100) in
  let mp := (5 * doy + 2) / 153 in
  let d := doy - (153 * mp + 2) / 5 + 1 in
  let m := if mp <? 10 then mp + 3 else mp - 9 in
  let y := yoe + era * 400 + (if m <=? 2 then 1 else 0) in
  (y, m, d).

Definition digit_char (d : Z) : ascii := ascii_of_N (Z.to_N (48 + d mod 10)).

Definition dec2 (n : Z) : string :=
  String (digit_char (n / 10)) (String (digit_char n) EmptyString).

Definition dec4 (n : Z) : string :=
  String (digit_char (n / 1000)) (String (digit_char (n / 100))
    (String (digit_char (n / 10)) (String (digit_char n) EmptyString))).

(** [t.strftime('%Y-%m-%d %H:%M:%S')]: the microseconds are dropped. *)
Definition strftime (t : datetime) : string :=
  let secs := t / 1000000 in
  let '(y, m, d) := civil_from_days (secs / 86400) in
  let sod := secs mod 86400 in
  dec4 y ++ "-" ++ dec2 m ++ "-" ++ dec2 d ++ " " ++
  dec2 (sod / 3600) ++ ":" ++ dec2 (sod mod 3600 / 60) ++ ":" ++ dec2 (sod mod 60).

(* ================================================================== *)
(** ** [secrets.token_urlsafe] *)

(** The URL-safe base-64 alphabet [A-Z a-z 0-9 - _]. *)
Definition b64_char (i : N) : ascii :=
  (if i <? 26 then ascii_of_N (65 + i)
   else if i <? 52 then ascii_of_N (97 + (i - 26))
   else if i <? 62 then ascii_of_N (48 + (i - 52))
   else if i =? 62 then "-"%char
   else "_"%char)%N.

(** [base64.urlsafe_b64encode] *)
Fixpoint urlsafe_b64encode (bs : list byte) : string :=
  match bs with
  | a :: b :: c :: rest =>
      let n := (Byte.to_N a * 65536 + Byte.to_N b * 256 + Byte.to_N c)%N in
      String (b64_char (n / 262144)) (String (b64_char (n / 4096 mod 64))
        (String (b64_char (n / 64 mod 64)) (String (b64_char (n mod 64))
          (urlsafe_b64encode rest))))
  | [a; b] =>
      let n := (Byte.to_N a * 65536 + Byte.to_N b * 256)%N in
      String (b64_char (n / 262144)) (String (b64_char (n / 4096 mod 64))
        (String (b64_char (n / 64 mod 64)) "="))
  | [a] =>
      let n := (Byte.to_N a * 65536)%N in
      String (b64_char (n / 262144)) (String (b64_char (n / 4096 mod 64)) "==")
  | [] => EmptyString
  end.

(** [s.rstrip(b'=')] *)
Fixpoint rstrip_eq (s : string) : string :=
  match s with
  | String c s' =>
      match rstrip_eq s' with
      | EmptyString =>
          if Ascii.eqb c "=" then EmptyString else String c EmptyString
      | t => String c t
      end
  | EmptyString => EmptyString
  end.

(** [secrets.token_urlsafe(nbytes)], given the [nbytes] bytes that
    [secrets.token_bytes] drew from the operating system. *)
Definition token_urlsafe (tok : list byte) : string :=
  rstrip_eq (urlsafe_b64encode tok).



(* ================================================================== *)
(** ** SQLite values *)

Inductive sqlval : Type :=
| SNull
| SInt (z : Z)
| SReal (f : float)
| SText (s : string).

Definition int64_ok (z : Z) : bool :=
  (- 9223372036854775808 <=? z) && (z <=? 9223372036854775807).

(** How the [sqlite3] driver binds a Python parameter.  An integer that
    64 bits do not hold raises; a NaN is stored as NULL. *)
Definition bind_param (v : pyval) : result sqlval :=
  match v with
  | PNone => Ok SNull
  | PBool b => Ok (SInt (int_of_bool b))
  | PInt z => if int64_ok z then Ok (SInt z) else Raise OverflowError
  | PFloat f => Ok (if PrimFloat.is_nan f then SNull else SReal f)
  | PStr s => Ok (SText s)
  end.

(** The value of a finite double as [m * 2^e]. *)
Definition float_value (f : float) : option (Z * Z) :=
  match FloatOps.Prim2SF f with
  | SpecFloat.S754_zero _ => Some (0, 0)
  | SpecFloat.S754_finite s m e => Some (if s then Z.neg m else Z.pos m, e)
  | _ => None
  end.

(** The integer a double stands for, when it stands for one. *)
Definition float_integral (f : float) : option Z :=
  match float_value f with
  | Some (m, e) =>
      if 0 <=? e then Some (m * 2 ^ e)
      else if m mod 2 ^ (- e) =? 0 then Some (m / 2 ^ (- e))
      else None
  | None => None
  end.

Inductive affinity : Type := AffInteger | AffReal | AffNumeric.

(** Column affinity applied to a stored number.  Text stays text: the
    conversion SQLite applies to text that spells a number is not
    modelled (the callers pass numbers). *)
Definition apply_affinity (a : affinity) (v : sqlval) : sqlval :=
  match a, v with
  | AffReal, SInt z => SReal (float_of_Z z)
  | (AffInteger | AffNumeric), SReal f =>
      match float_integral f with
      | Some z => if int64_ok z then SInt z else v
      | None => v
      end
  | _, _ => v
  end.

(** Exact comparison [z <= f] and [f <= z] of an integer and a double. *)
Definition int_le_real (z : Z) (f : float) : bool :=
  match float_value f with
  | Some (m, e) => if 0 <=? e then z <=? m * 2 ^ e else z * 2 ^ (- e) <=? m
  | None => PrimFloat.ltb PrimFloat.zero f
  end.

Definition real_le_int (f : float) (z : Z) : bool :=
  match float_value f with
  | Some (m, e) => if 0 <=? e then m * 2 ^ e <=? z else m <=? z * 2 ^ (- e)
  | None => PrimFloat.ltb f PrimFloat.zero
  end.

(** SQLite's order of stored values: NULL, then the numbers, then text
    bytewise. *)
Definition sql_le (a b : sqlval) : bool :=
  match a, b with
  | SNull, _ => true
  | _, SNull => false
  | SInt x, SInt y => x <=? y
  | SInt x, SReal g => int_le_real x g
  | SReal f, SInt y => real_le_int f y
  | SReal f, SReal g => PrimFloat.leb f g
  | (SInt _ | SReal _), SText _ => true
  | SText _, (SInt _ | SReal _) => false
  | SText s, SText t => String.leb s t
  end.

(** A [CHECK] constraint: it fails only when its condition is false, and
    a condition on NULL is unknown, not false. *)
Inductive check : Type :=
| CheckRange (lo hi : Z)      (* CHECK(c >= lo AND c <= hi) *)
| CheckIn01.                  (* CHECK(c IN (0, 1)) *)

Definition check_passes (c : check) (v : sqlval) : bool :=
  match c, v with
  | _, SNull => true
  | CheckRange lo hi, _ => sql_le (SInt lo) v && sql_le v (SInt hi)
  | CheckIn01, SInt z => (z =? 0) || (z =? 1)
  | CheckIn01, SReal f =>
      PrimFloat.eqb f PrimFloat.zero || PrimFloat.eqb f PrimFloat.one
  | CheckIn01, SText _ => false
  end.

(* ================================================================== *)
(** ** The schema of [init_db] *)

(** [users (id, username, password_hash, email, theme, created_at)] *)
Record user_row : Type := mk_user {
  u_id : Z;
  username : string;
  password_hash : string;
  email : string;
  theme : option string;
  created_at : string
}.

(** [password_resets (id, user_id, token, created_at, expires_at)] *)
Record reset_row : Type := mk_reset {
  r_id : Z;
  r_user_id : Z;
  token : string;
  r_created_at : string;
  expires_at : string
}.

(** [predictions (id, user_id, prediction_type, probability, outcome,
    timestamp)] *)
Record prediction_row : Type := mk_prediction {
  p_id : Z;
  p_user_id : Z;
  prediction_type : string;
  probability : sqlval;
  outcome : string;
  timestamp : string
}.

(** [patients]: the id, the owner, the timestamp, and the data columns
    that were given a value (the others are NULL). *)
Record patient_row : Type := mk_patient {
  pt_id : Z;
  pt_user_id : Z;
  pt_data : list (string * sqlval);
  pt_timestamp : sqlval
}.

(** The data columns of [patients] with their affinity and [CHECK]. *)
Definition patient_columns : list (string * (affinity * check)) :=
  [ ("age", (AffInteger, CheckRange 1 13));
    ("bmi", (AffReal, CheckRange 10 100));
    ("high_bp", (AffInteger, CheckIn01));
    ("high_chol", (AffInteger, CheckIn01));
    ("chol_check", (AffInteger, CheckIn01));
    ("smoker", (AffInteger, CheckIn01));
    ("stroke", (AffInteger, CheckIn01));
    ("heart_disease", (AffInteger, CheckIn01));
    ("phys_activity", (AffInteger, CheckIn01));
    ("fruits", (AffInteger, CheckIn01));
    ("veggies", (AffInteger, CheckIn01));
    ("hvy_alcohol", (AffInteger, CheckIn01));
    ("any_healthcare", (AffInteger, CheckIn01));
    ("no_doc_cost", (AffInteger, CheckIn01));
    ("gen_health", (AffInteger, CheckRange 1 5));
    ("ment_health", (AffInteger, CheckRange 0 30));
    ("phys_health", (AffInteger, CheckRange 0 30));
    ("diff_walk", (AffInteger, CheckIn01));
    ("sex", (AffInteger, CheckIn01));
    ("education", (AffInteger, CheckRange 1 6));
    ("income", (AffInteger, CheckRange 1 8));
    ("prediction", (AffInteger, CheckIn01));
    ("probability", (AffReal, CheckRange 0 1)) ].

(** The database file: four tables and, for each, the largest id that
    [AUTOINCREMENT] has handed out. *)
Record DB : Type := mk_db {
  users : list user_row;
  users_seq : Z;
  patients : list patient_row;
  patients_seq : Z;
  predictions : list prediction_row;
  predictions_seq : Z;
  password_resets : list reset_row;
  password_resets_seq : Z
}.

Definition empty_db : DB := mk_db [] 0 [] 0 [] 0 [] 0.

Definition set_users (db : DB) (l : list user_row) (n : Z) : DB :=
  mk_db l n (patients db) (patients_seq db) (predictions db)
    (predictions_seq db) (password_resets db) (password_resets_seq db).

Definition set_patients (db : DB) (l : list patient_row) (n : Z) : DB :=
  mk_db (users db) (users_seq db) l n (predictions db)
    (predictions_seq db) (password_resets db) (password_resets_seq db).

Definition set_predictions (db : DB) (l : list prediction_row) (n : Z) : DB :=
  mk_db (users db) (users_seq db) (patients db) (patients_seq db) l n
    (password_resets db) (password_resets_seq db).

Definition set_password_resets (db : DB) (l : list reset_row) (n : Z) : DB :=
  mk_db (users db) (users_seq db) (patients db) (patients_seq db)
    (predictions db) (predictions_seq db) l n.

(* ================================================================== *)
(** ** The SQL statements of [database.py] and [app.py]

    Each is a function of the image it runs on.  A statement that fails
    leaves the image as it was. *)

Definition statement : Type := DB -> result DB.

(** [INSERT INTO users (username, password_hash, email) VALUES (?, ?, ?)];
    [username] and [email] are [UNIQUE]; [theme] and [created_at] take
    their defaults, the latter SQLite's [CURRENT_TIMESTAMP]. *)
Definition insert_user (uname hash mail current_timestamp : string) : statement :=
  fun db =>
    if existsb (fun r => String.eqb (username r) uname || String.eqb (email r) mail)
         (users db)
    then Raise IntegrityError
    else
      let id := users_seq db + 1 in
      Ok (set_users db
            (users db ++ [mk_user id uname hash mail (Some "light") current_timestamp])
            id).

(** [SELECT * FROM users WHERE username = ?], then [fetchone()]. *)
Definition select_user_by_username (uname : string) (db : DB) : option user_row :=
  find (fun r => String.eqb (username r) uname) (users db).

(** [SELECT * FROM users WHERE email = ?], then [fetchone()]. *)
Definition select_user_by_email (mail : string) (db : DB) : option user_row :=
  find (fun r => String.eqb (email r) mail) (users db).

(** [UPDATE users SET theme = ? WHERE id = ?] *)
Definition update_theme (th : string) (id : Z) : statement :=
  fun db =>
    Ok (set_users db
          (map (fun r => if u_id r =? id
                         then mk_user (u_id r) (username r) (password_hash r)
                                (email r) (Some th) (created_at r)
                         else r) (users db))
          (users_seq db)).

(** [DELETE FROM users WHERE id = ?] *)
Definition delete_users_where_id (id : Z) : statement :=
  fun db =>
    Ok (set_users db (filter (fun r => negb (u_id r =? id)) (users db))
          (users_seq db)).

(** [DELETE FROM password_resets WHERE user_id = ?] *)
Definition delete_resets_where_user (uid : Z) : statement :=
  fun db =>
    Ok (set_password_resets db
          (filter (fun r => negb (r_user_id r =? uid)) (password_resets db))
          (password_resets_seq db)).

(** [INSERT INTO password_resets (user_id, token, expires_at)
    VALUES (?, ?, ?)] *)
Definition insert_reset (uid : Z) (tok expires current_timestamp : string) : statement :=
  fun db =>
    let id := password_resets_seq db + 1 in
    Ok (set_password_resets db
          (password_resets db ++ [mk_reset id uid tok current_timestamp expires])
          id).

(** [SELECT * FROM password_resets WHERE token = ? AND expires_at > ?],
    then [fetchone()].  Both sides of [>] are text. *)
Definition select_reset (tok now_text : string) (db : DB) : option reset_row :=
  find (fun r => String.eqb (token r) tok && String.ltb now_text (expires_at r))
    (password_resets db).

(** [DELETE FROM password_resets WHERE expires_at <= ?] *)
Definition delete_resets_expired (now_text : string) : statement :=
  fun db =>
    Ok (set_password_resets db
          (filter (fun r => negb (String.leb (expires_at r) now_text))
             (password_resets db))
          (password_resets_seq db)).

(** [INSERT INTO predictions (user_id, prediction_type, probability,
    outcome, timestamp) VALUES (?, ?, ?, ?, ?)]; [probability] is
    [REAL CHECK(probability >= 0 AND probability <= 100)]. *)
Definition insert_prediction (uid : Z) (ty : string) (p : sqlval)
    (out ts : string) : statement :=
  fun db =>
    let p' := apply_affinity AffReal p in
    if check_passes (CheckRange 0 100) p' then
      let id := predictions_seq db + 1 in
      Ok (set_predictions db
            (predictions db ++ [mk_prediction id uid ty p' out ts]) id)
    else Raise IntegrityError.

(** [SELECT id, user_id, prediction_type, probability, outcome, timestamp
    FROM predictions WHERE user_id = ?], with [AND prediction_type = ?]
    when a type is given. *)
Definition select_predictions (uid : Z) (ty : option string) (db : DB)
    : list prediction_row :=
  filter (fun r => (p_user_id r =? uid) &&
                   match ty with
                   | Some t => String.eqb (prediction_type r) t
                   | None => true
                   end)
    (predictions db).

(** [DELETE FROM predictions WHERE user_id = ?] *)
Definition delete_predictions_where_user (uid : Z) : statement :=
  fun db =>
    Ok (set_predictions db
          (filter (fun r => negb (p_user_id r =? uid)) (predictions db))
          (predictions_seq db)).

(** [DELETE FROM patients WHERE user_id = ?] *)
Definition delete_patients_where_user (uid : Z) : statement :=
  fun db =>
    Ok (set_patients db
          (filter (fun r => negb (pt_user_id r =? uid)) (patients db))
          (patients_seq db)).

Definition known_patient_column (k : string) : bool :=
  String.eqb k "id" || String.eqb k "timestamp" ||
  existsb (fun c => String.eqb (fst c) k) patient_columns.

(** The columns of one [INSERT INTO patients], stored one by one into
    the row under construction. *)
Fixpoint store_patient_columns (tbl : list patient_row)
    (kw : list (string * sqlval)) (row : patient_row) : result patient_row :=
  match kw with
  | [] => Ok row
  | (k, v) :: kw' =>
      if String.eqb k "id" then
        match apply_affinity AffInteger v with
        | SInt z =>
            if existsb (fun r => pt_id r =? z) tbl then Raise IntegrityError
            else store_patient_columns tbl kw'
                   (mk_patient z (pt_user_id row) (pt_data row) (pt_timestamp row))
        | SNull => store_patient_columns tbl kw' row
        | _ => Raise IntegrityError
        end
      else if String.eqb k "timestamp" then
        store_patient_columns tbl kw'
          (mk_patient (pt_id row) (pt_user_id row) (pt_data row)
             (apply_affinity AffNumeric v))
      else
        match find (fun c => String.eqb (fst c) k) patient_columns with
        | Some (_, (aff, chk)) =>
            let v' := apply_affinity aff v in
            if check_passes chk v' then
              store_patient_columns tbl kw'
                (mk_patient (pt_id row) (pt_user_id row)
                   (pt_data row ++ [(k, v')]) (pt_timestamp row))
            else Raise IntegrityError
        | None => Raise OperationalError
        end
  end.

(** [INSERT INTO patients (user_id, k1, ..., kn) VALUES (?, ?, ..., ?)] on
    bound values.  A column the table does not have is refused when the
    statement is prepared, before any constraint is looked at. *)
Definition insert_patient (uid : Z) (kw : list (string * sqlval))
    (current_timestamp : string) : statement :=
  fun db =>
    if forallb (fun c => known_patient_column (fst c)) kw then
      match store_patient_columns (patients db) kw
              (mk_patient (patients_seq db + 1) uid [] (SText current_timestamp)) with
      | Ok row =>
          Ok (set_patients db (patients db ++ [row])
                (Z.max (patients_seq db) (pt_id row)))
      | Raise e => Raise e
      end
    else Raise OperationalError.

(** [ORDER BY timestamp DESC]; rows with equal timestamps keep their
    rowid order (SQLite leaves their order open). *)
Fixpoint insert_desc (r : patient_row) (l : list patient_row) : list patient_row :=
  match l with
  | [] => [r]
  | x :: l' =>
      if sql_le (pt_timestamp x) (pt_timestamp r) then r :: x :: l'
      else x :: insert_desc r l'
  end.

Definition order_by_timestamp_desc (l : list patient_row) : list patient_row :=
  fold_right insert_desc [] l.

(** [SELECT * FROM patients WHERE user_id = ? ORDER BY timestamp DESC] *)
Definition select_patients (uid : Z) (db : DB) : list patient_row :=
  order_by_timestamp_desc (filter (fun r => pt_user_id r =? uid) (patients db)).




(* ================================================================== *)
(** ** Calls that change a state and may raise *)

Definition Py (S A : Type) : Type := S -> result A * S.

Definition ret {S A : Type} (a : A) : Py S A := fun s => (Ok a, s).

Definition raise {S A : Type} (e : exn) : Py S A := fun s => (Raise e, s).

Definition bind {S A B : Type} (m : Py S A) (k : A -> Py S B) : Py S B :=
  fun s =>
    match m s with
    | (Ok a, s') => k a s'
    | (Raise e, s') => (Raise e, s')
    end.

(** [try: m except: h] *)
Definition try_except {S A : Type} (m : Py S A) (h : exn -> Py S A) : Py S A :=
  fun s =>
    match m s with
    | (Ok a, s') => (Ok a, s')
    | (Raise e, s') => h e s'
    end.

Definition lift {S A : Type} (r : result A) : Py S A := fun s => (r, s).

Declare Scope py_scope.
Delimit Scope py_scope with py.
Notation "x <- m ;; k" := (bind m (fun x => k))
  (at level 61, m at next level, right associativity) : py_scope.
Notation "m ;; k" := (bind m (fun _ => k))
  (at level 61, right associativity) : py_scope.
Local Open Scope py_scope.

(* ================================================================== *)
(** ** The connection of [db_pool]

    [disk] is the committed database file, [txn] what the connection
    sees (its open transaction included).  [faults] tells, for each call
    into the driver or the file system still to come, whether it raises;
    when the list is used up nothing raises.  [backup_file] is the copy
    at [BACKUP_PATH]. *)

Record world : Type := mk_world {
  disk : DB;
  txn : DB;
  faults : list bool;
  backup_file : option DB;
  last_backup_time : option datetime
}.

Definition set_disk (w : world) (db : DB) : world :=
  mk_world db (txn w) (faults w) (backup_file w) (last_backup_time w).

Definition set_txn (w : world) (db : DB) : world :=
  mk_world (disk w) db (faults w) (backup_file w) (last_backup_time w).

Definition set_faults (w : world) (fs : list bool) : world :=
  mk_world (disk w) (txn w) fs (backup_file w) (last_backup_time w).

Definition set_backup (w : world) (t : datetime) : world :=
  mk_world (disk w) (txn w) (faults w) (Some (disk w)) (Some t).

(** The connection once [db] is committed and no transaction is open. *)
Definition settled (w : world) (db : DB) : world :=
  mk_world db db (faults w) (backup_file w) (last_backup_time w).

(** A connection at rest, on a system where nothing fails. *)
Definition at_rest (db : DB) : world := mk_world db db [] None None.

Definition fault_point (e : exn) : Py world unit :=
  fun w =>
    match faults w with
    | true :: fs => (Raise e, set_faults w fs)
    | false :: fs => (Ok tt, set_faults w fs)
    | [] => (Ok tt, w)
    end.

(** [c.execute(stmt, params)] for a statement that writes. *)
Definition execute (s : statement) : Py world unit :=
  fault_point OperationalError ;;
  fun w =>
    match s (txn w) with
    | Ok db => (Ok tt, set_txn w db)
    | Raise e => (Raise e, w)
    end.

(** [c.execute(query, params)] followed by the fetch. *)
Definition fetch {A : Type} (q : DB -> A) : Py world A :=
  fault_point OperationalError ;;
  fun w => (Ok (q (txn w)), w).

(** [conn.commit()] *)
Definition commit : Py world unit :=
  fault_point OperationalError ;;
  fun w => (Ok tt, set_disk w (txn w)).

(** [with db_pool.get_connection() as conn: body]: the connection
    commits when [body] returns and rolls back when it raises. *)
Definition with_connection {A : Type} (body : Py world A) : Py world A :=
  fun w =>
    match body w with
    | (Ok a, w') => (Ok a, set_disk w' (txn w'))
    | (Raise e, w') => (Raise e, set_txn w' (disk w'))
    end.


(** [backup_database(force)] *)
Definition backup_database (force : bool) (now : datetime) : Py world unit :=
  fun w =>
    if force ||
       match last_backup_time w with
       | None => true
       | Some t => timedelta_days 1 <=? now - t
       end
    then (fault_point OSError ;; fun w' => (Ok tt, set_backup w' now)) w
    else (Ok tt, w).

(** [CREATE TABLE IF NOT EXISTS ...], [CREATE INDEX IF NOT EXISTS ...]:
    the tables of [DB] are always there, so nothing changes. *)
Definition create_if_not_exists : statement := fun db => Ok db.

(** [init_db()]: four tables and five indexes; a new file starts as
    [empty_db]. *)
Definition init_db (now : datetime) : Py world unit :=
  with_connection (
    execute create_if_not_exists ;;
    execute create_if_not_exists ;;
    execute create_if_not_exists ;;
    execute create_if_not_exists ;;
    execute create_if_not_exists ;;
    execute create_if_not_exists ;;
    execute create_if_not_exists ;;
    execute create_if_not_exists ;;
    execute create_if_not_exists ;;
    commit ;;
    backup_database true now).

(* ================================================================== *)
(** ** [database.py] *)

Section Store.

(** The Argon2 hasher [ph = PasswordHasher()]: [ph.hash(password)] with
    the salt it draws, and [ph.verify(hash, password)], which returns
    [True] or raises. *)
Variable ph_hash : list byte -> string -> string.
Variable ph_verify : string -> string -> result bool.

(** What is assumed of Argon2: a hash verifies the password it was made
    from, and no other. *)
Hypothesis ph_verify_own : forall salt pw,
    ph_verify (ph_hash salt pw) pw = Ok true.
Hypothesis ph_verify_other : forall salt pw pw',
    pw' <> pw -> ph_verify (ph_hash salt pw) pw' = Raise VerifyMismatchError.

(** [pyotp.TOTP(secret).verify(code)] at a given time. *)
Variable totp_verify : string -> string -> datetime -> bool.

Definition hash_password (salt : list byte) (password : string) : string :=
  ph_hash salt password.

(** The bare [except:] turns whatever [ph.verify] raises into [False]. *)
Definition verify_password (password hashed : string) : result bool :=
  match ph_verify hashed password with
  | Ok b => Ok b
  | Raise _ => Ok false
  end.

Definition as_int (v : pyval) : option Z :=
  match v with
  | PInt z => Some z
  | PBool b => Some (int_of_bool b)
  | _ => None
  end.

Definition as_str (v : pyval) : option string :=
  match v with PStr s => Some s | _ => None end.

(** The five checks at the head of [save_prediction]. *)
Definition check_prediction (user_id prediction_type probability outcome ts : pyval)
    : result (Z * string * float * string * string) :=
  match as_int user_id with
  | None => Raise (ValueError "Invalid user_id")
  | Some uid =>
  if uid <=? 0 then Raise (ValueError "Invalid user_id") else
  match as_str prediction_type with
  | None => Raise (ValueError "Invalid prediction_type")
  | Some ty =>
  if str_empty ty then Raise (ValueError "Invalid prediction_type") else
  if negb (isinstance_int_float probability) || negb (num_in_0_100 probability)
  then Raise (ValueError "Probability must be between 0 and 100") else
  match as_str outcome with
  | None => Raise (ValueError "Outcome must be a non-empty string")
  | Some out =>
  if str_empty (strip out)
  then Raise (ValueError "Outcome must be a non-empty string") else
  match as_str ts with
  | None => Raise (ValueError "Invalid timestamp format")
  | Some t =>
  if negb (re_match_anchored timestamp_re t)
  then Raise (ValueError "Invalid timestamp format")
  else Ok (uid, ty, py_float probability, out, t)
  end end end end.

Definition save_prediction (user_id prediction_type probability outcome ts : pyval)
    : Py world unit :=
  a <- lift (check_prediction user_id prediction_type probability outcome ts) ;;
  let '(uid, ty, p, out, t) := a in
  with_connection (
    v <- lift (bind_param (PFloat p)) ;;
    (if int64_ok uid then execute (insert_prediction uid ty v out t)
     else raise OverflowError) ;;
    commit).

(** A row of the data frame that [get_user_predictions] returns. *)
Record prediction_record : Type := mk_prediction_record {
  df_id : Z;
  df_user_id : Z;
  df_prediction_type : string;
  df_probability : float;
  df_outcome : string;
  df_timestamp : string
}.

(** A [REAL] column read into a [float64] column, then
    [pd.to_numeric(..., errors='coerce')]: NULL and text that is no
    number become NaN. *)
Definition to_numeric (v : sqlval) : float :=
  match v with
  | SReal f => f
  | SInt z => float_of_Z z
  | SNull | SText _ => PrimFloat.nan
  end.

Definition truthy_str (s : option string) : option string :=
  match s with
  | Some t => if str_empty t then None else Some t
  | None => None
  end.

Definition get_user_predictions (user_id : Z) (ptype : option string)
    : Py world (list prediction_record) :=
  with_connection (
    rows <- fetch (select_predictions user_id (truthy_str ptype)) ;;
    ret (map (fun r => mk_prediction_record (p_id r) (p_user_id r)
                         (prediction_type r) (to_numeric (probability r))
                         (outcome r) (timestamp r)) rows)).

Fixpoint bind_params (kw : list (string * pyval)) : result (list (string * sqlval)) :=
  match kw with
  | [] => Ok []
  | (k, v) :: kw' =>
      match bind_param v with
      | Ok v' =>
          match bind_params kw' with
          | Ok l => Ok ((k, v') :: l)
          | Raise e => Raise e
          end
      | Raise e => Raise e
      end
  end.

(** [save_patient_data(user_id, **kwargs)].  [kwargs] is a dictionary in
    the order of its keys, which are distinct; Python does not let
    [user_id] be one of them. *)
Definition save_patient_data (user_id : Z) (kwargs : list (string * pyval))
    (current_timestamp : string) : Py world unit :=
  if existsb (fun kv => is_None (snd kv)) kwargs
  then raise (ValueError "All input fields must be provided")
  else if existsb (fun kv => isinstance_int_float (snd kv) && num_lt_zero (snd kv)) kwargs
  then raise (ValueError "Input values must be non-negative")
  else
    with_connection (
      values <- lift (bind_params kwargs) ;;
      execute (insert_patient user_id values current_timestamp) ;;
      commit).

Definition get_patient_history (user_id : Z) : Py world (list patient_row) :=
  with_connection (fetch (select_patients user_id)).

(** The five checks at the head of [register_user], on the stripped
    username and the stripped, lower-cased email. *)
Definition check_registration (username password email : string) : result unit :=
  if str_empty username || str_empty password || str_empty email
  then Raise (ValueError "Username, password, and email are required")
  else if (String.length password <? 8)%nat
  then Raise (ValueError "Password must be at least 8 characters long")
  else if (String.length username <? 3)%nat || (50 <? String.length username)%nat
  then Raise (ValueError "Username must be between 3 and 50 characters")
  else if negb (re_match_anchored username_re username)
  then Raise (ValueError "Username can only contain letters, numbers, and underscores")
  else if negb (re_match_anchored email_re email)
  then Raise (ValueError "Invalid email format")
  else Ok tt.

Definition register_user (username password email : string)
    (salt : list byte) (current_timestamp : string) : Py world bool :=
  try_except
    (let username := strip username in
     let email := lower (strip email) in
     lift (check_registration username password email) ;;
     with_connection (
       let password_hash := hash_password salt password in
       execute (insert_user username password_hash email current_timestamp) ;;
       commit ;;
       ret true))
    (fun e =>
       match e with
       | IntegrityError => ret false
       | _ => raise e
       end).

Definition authenticate_user (username password : string)
    : Py world (option user_row) :=
  with_connection (
    user <- fetch (select_user_by_username (strip username)) ;;
    match user with
    | Some u =>
        ok <- lift (verify_password password (password_hash u)) ;;
        if ok then ret (Some u) else ret None
    | None => ret None
    end).

Definition get_user_by_email (email : string) : Py world (option user_row) :=
  with_connection (fetch (select_user_by_email (lower (strip email)))).

(** [secrets.token_urlsafe(32)] on the operating system's random bytes. *)
Definition create_reset_token (user_id : Z) (urandom : list byte)
    (now : datetime) (current_timestamp : string) : Py world string :=
  with_connection (
    execute (delete_resets_where_user user_id) ;;
    let token := token_urlsafe (firstn 32 urandom) in
    let expires_at := strftime (now + timedelta_hours 1) in
    execute (insert_reset user_id token expires_at current_timestamp) ;;
    commit ;;
    ret token).

Definition get_reset_token (token : string) (now : datetime)
    : Py world (option reset_row) :=
  with_connection (fetch (select_reset token (strftime now))).

Definition cleanup_expired_tokens (now : datetime) : Py world unit :=
  with_connection (
    execute (delete_resets_expired (strftime now)) ;;
    commit).

Definition update_user_theme (user_id : Z) (theme : string) : Py world unit :=
  if negb (String.eqb theme "light" || String.eqb theme "dark")
  then raise (ValueError "Theme must be 'light' or 'dark'")
  else
    with_connection (
      execute (update_theme theme user_id) ;;
      commit).

Definition delete_user (user_id : Z) (now : datetime) : Py world unit :=
  with_connection (
    execute (delete_resets_where_user user_id) ;;
    execute (delete_predictions_where_user user_id) ;;
    execute (delete_patients_where_user user_id) ;;
    execute (delete_users_where_id user_id) ;;
    commit ;;
    backup_database false now).

(* ================================================================== *)
(** ** [app.py]: the patient history page *)


(** [total_pages], the clamped [page], [start_idx] and [end_idx] that
    the page computes after the fetch. *)
Definition page_window (total_records page page_size : Z) : Z * Z * Z * Z :=
  let total_pages := (total_records + page_size - 1) / page_size in
  let page := if 0 <? total_pages then Z.min page total_pages else 1 in
  let start_idx := (page - 1) * page_size in
  let end_idx := start_idx + page_size in
  (total_pages, page, start_idx, end_idx).

(* ================================================================== *)
(** ** [app.py]: the quick-login form *)

Record session_state : Type := mk_session {
  logged_in : bool;
  s_username : string;
  s_user_id : option Z;
  redirect_to : string;
  last_activity : datetime;
  s_theme : string;
  page_transition : bool;
  notifications : list (string * string);
  tfa_secret : option string;      (* st.session_state["2fa_secret"] *)
  tfa_enabled : bool;              (* st.session_state["2fa_enabled"] *)
  button_clicks : Z
}.

(** What the script puts on the page. *)
Inductive ui_event : Type :=
| UiError (msg : string)
| UiErrorExn (msg : string) (e : exn)
| UiMarkdown (what : string).

Record app : Type := mk_app {
  session : session_state;
  conn : world;
  screen : list ui_event
}.

Definition on_conn {A : Type} (m : Py world A) : Py app A :=
  fun a =>
    let '(r, w) := m (conn a) in
    (r, mk_app (session a) w (screen a)).

Definition get_session : Py app session_state :=
  fun a => (Ok (session a), a).

Definition modify_session (f : session_state -> session_state) : Py app unit :=
  fun a => (Ok tt, mk_app (f (session a)) (conn a) (screen a)).

Definition show (e : ui_event) : Py app unit :=
  fun a => (Ok tt, mk_app (session a) (conn a) (screen a ++ [e])).

(** [st.error(msg)] *)
Definition st_error (msg : string) : Py app unit := show (UiError msg).

(** [st.session_state.analytics["button_clicks"] += 1] *)
Definition count_click (s : session_state) : session_state :=
  mk_session (logged_in s) (s_username s) (s_user_id s) (redirect_to s)
    (last_activity s) (s_theme s) (page_transition s) (notifications s)
    (tfa_secret s) (tfa_enabled s) (button_clicks s + 1).

(** Lines 281 to 286: the session of a user who has logged in. *)
Definition log_in (username : string) (user : user_row) (now : datetime)
    (s : session_state) : session_state :=
  mk_session true username (Some (u_id user)) (redirect_to s) now
    (match theme user with
     | Some t => if str_empty t then "light" else t
     | None => "light"
     end)
    (page_transition s)
    (notifications s ++ [("success", "Welcome back, " ++ username ++ "!")])
    (tfa_secret s) (tfa_enabled s) (button_clicks s).

Definition set_page_transition (s : session_state) : session_state :=
  mk_session (logged_in s) (s_username s) (s_user_id s) (redirect_to s)
    (last_activity s) (s_theme s) true (notifications s)
    (tfa_secret s) (tfa_enabled s) (button_clicks s).

(** [apply_custom_css(theme)] only writes markup and handles its own
    errors. *)
Definition apply_custom_css (th : string) : Py app unit :=
  show (UiMarkdown "style").

(** [pyotp.TOTP(secret).verify(code)]; without a secret it raises. *)
Definition totp_check (secret : option string) (code : string) (now : datetime)
    : result bool :=
  match secret with
  | Some s => Ok (totp_verify s code now)
  | None => Raise TypeError
  end.

(** The quick-login form when its submit button was pressed, with the
    text typed into its fields.  The 2FA field exists only when 2FA is
    enabled; otherwise [tfa_code] is [None]. *)
Definition quick_login (username password typed_code : string) (now : datetime)
    : Py app unit :=
  s0 <- get_session ;;
  let tfa_code := if tfa_enabled s0 then Some typed_code else None in
  modify_session count_click ;;
  try_except
    (user <- on_conn (authenticate_user username password) ;;
     match user with
     | Some user =>
         s <- get_session ;;
         match (if tfa_enabled s then truthy_str tfa_code else None) with
         | Some code =>
             ok <- lift (totp_check (tfa_secret s) code now) ;;
             if negb ok then st_error "Invalid 2FA code." else ret tt
         | None => ret tt
         end ;;
         modify_session (log_in username user now) ;;
         s' <- get_session ;;
         apply_custom_css (s_theme s') ;;
         (if negb (String.eqb (redirect_to s') "app.py") then
            modify_session set_page_transition ;;
            raise (SwitchPageException (redirect_to s'))
          else ret tt) ;;
         raise RerunException
     | None => st_error "Invalid username or password."
     end)
    (fun e =>
       if is_Exception e then show (UiErrorExn "Login error" e)
       else raise e).


(* ================================================================== *)
(** ** What the claims speak of *)

(** The rows a user owns in each dependent table. *)
Definition resets_of (uid : Z) (db : DB) : list reset_row :=
  filter (fun r => r_user_id r =? uid) (password_resets db).

Definition predictions_of (uid : Z) (db : DB) : list prediction_row :=
  filter (fun r => p_user_id r =? uid) (predictions db).

Definition patients_of (uid : Z) (db : DB) : list patient_row :=
  filter (fun r => pt_user_id r =? uid) (patients db).

Definition users_with_id (uid : Z) (db : DB) : list user_row :=
  filter (fun r => u_id r =? uid) (users db).

Definition users_named (uname : string) (db : DB) : list user_row :=
  filter (fun r => String.eqb (username r) uname) (users db).

(** The database after the four [DELETE]s of [delete_user]. *)
Definition cascade (uid : Z) (db : DB) : DB :=
  mk_db (filter (fun r => negb (u_id r =? uid)) (users db)) (users_seq db)
    (filter (fun r => negb (pt_user_id r =? uid)) (patients db)) (patients_seq db)
    (filter (fun r => negb (p_user_id r =? uid)) (predictions db)) (predictions_seq db)
    (filter (fun r => negb (r_user_id r =? uid)) (password_resets db))
    (password_resets_seq db).


(** A field value that is a number below zero. *)
Inductive negative_number : pyval -> Prop :=
| negative_int : forall z, z < 0 -> negative_number (PInt z)
| negative_float : forall f,
    PrimFloat.ltb f PrimFloat.zero = true -> negative_number (PFloat f).

(** The [UNIQUE] constraint on [users.username], and the form in which
    [register_user] stores a name. *)
Definition users_wf (db : DB) : Prop :=
  NoDup (map username (users db)) /\
  forall r, In r (users db) -> strip (username r) = username r.

(** At most one reset token for each user. *)
Definition one_token_per_user (db : DB) : Prop :=
  forall uid, (List.length (resets_of uid db) <= 1)%nat.

(** The invariants of the store. *)
Definition store_ok (db : DB) : Prop := users_wf db /\ one_token_per_user db.

(** The calls into [database.py] that write. *)
Inductive api_call : Type :=
| CallInitDb (now : datetime)
| CallRegisterUser (uname password mail : string) (salt : list byte) (cts : string)
| CallCreateResetToken (uid : Z) (urandom : list byte) (now : datetime) (cts : string)
| CallCleanupExpiredTokens (now : datetime)
| CallUpdateUserTheme (uid : Z) (th : string)
| CallDeleteUser (uid : Z) (now : datetime)
| CallSavePrediction (uid ty p out ts : pyval)
| CallSavePatientData (uid : Z) (kwargs : list (string * pyval)) (cts : string).

Definition run_call (c : api_call) (w : world) : world :=
  match c with
  | CallInitDb now => snd (init_db now w)
  | CallRegisterUser u p e salt cts => snd (register_user u p e salt cts w)
  | CallCreateResetToken uid rnd now cts => snd (create_reset_token uid rnd now cts w)
  | CallCleanupExpiredTokens now => snd (cleanup_expired_tokens now w)
  | CallUpdateUserTheme uid th => snd (update_user_theme uid th w)
  | CallDeleteUser uid now => snd (delete_user uid now w)
  | CallSavePrediction uid ty p out ts => snd (save_prediction uid ty p out ts w)
  | CallSavePatientData uid kw cts => snd (save_patient_data uid kw cts w)
  end.

(** The states of the connection that the application can be in: it
    starts on a new file, makes calls, and the driver and the file
    system may fail in any of them. *)
Inductive reachable : world -> Prop :=
| reach_start : reachable (at_rest empty_db)
| reach_call : forall w c, reachable w -> reachable (run_call c w)
| reach_faults : forall w fs, reachable w -> reachable (set_faults w fs).

(* ================================================================== *)
(** ** Concrete data *)

(** A stand-in for Argon2 on which the two assumptions hold; it is not
    a hash, it only lets the statements be run on concrete rows. *)
Definition demo_hash (salt : list byte) (pw : string) : string :=
  "$argon2id$" ++ pw.

Definition demo_verify (hashed pw : string) : result bool :=
  if String.eqb hashed ("$argon2id$" ++ pw) then Ok true
  else Raise VerifyMismatchError.

(** A stand-in for the TOTP check: one code is right. *)
Definition demo_totp (secret code : string) (now : datetime) : bool :=
  String.eqb code "000000".

(** 2024-05-01 12:30:00 on the local clock, 10:30:00 on SQLite's. *)
Definition ex_now : datetime := 1714566600 * 1000000.
Definition ex_cts : string := "2024-05-01 10:30:00".

Definition ex_urandom : list byte :=
  [x00; x01; x02; x03; x04; x05; x06; x07; x08; x09; x0a; x0b; x0c; x0d; x0e; x0f;
   xf0; xf1; xf2; xf3; xf4; xf5; xf6; xf7; xf8; xf9; xfa; xfb; xfc; xfd; xfe; xff].

Definition ex_token : string :=
  Eval vm_compute in token_urlsafe (firstn 32 ex_urandom).

Definition ex_alice : user_row :=
  mk_user 1 "alice" "$argon2id$correct horse" "alice@example.org"
    (Some "light") ex_cts.

Definition ex_bob : user_row :=
  mk_user 2 "bob" "$argon2id$battery staple" "bob@example.org"
    (Some "dark") ex_cts.

(** The database after [register_user("alice", "correct horse",
    "Alice@Example.org")] on a new file. *)
Definition ex_db_alice : DB := mk_db [ex_alice] 1 [] 0 [] 0 [] 0.

Definition ex_reset : reset_row :=
  mk_reset 1 1 ex_token ex_cts "2024-05-01 13:30:00".

(** The same after [create_reset_token(1)] at [ex_now]. *)
Definition ex_db_token : DB := mk_db [ex_alice] 1 [] 0 [] 0 [ex_reset] 1.

(** Two users with rows in every table. *)
Definition ex_db_full : DB :=
  mk_db [ex_alice; ex_bob] 2
    [mk_patient 1 1 [("age", SInt 5); ("bmi", SReal 22.5)] (SText "2024-04-01 08:00:00");
     mk_patient 2 2 [("age", SInt 7)] (SText "2024-04-02 08:00:00");
     mk_patient 3 1 [("age", SInt 5); ("bmi", SReal 23)] (SText "2024-04-03 08:00:00")] 3
    [mk_prediction 1 1 "Diabetes" (SReal 73.5) "High Diabetes Risk" "2024-04-01 08:00:00";
     mk_prediction 2 2 "Pneumonia" (SReal 12) "Normal" "2024-04-02 08:00:00"] 2
    [ex_reset; mk_reset 2 2 "bobs-token" ex_cts "2024-05-01 13:31:00"] 2.


(** A logged-out session with 2FA enabled, on [ex_db_alice]. *)
Definition ex_app : app :=
  mk_app
    (mk_session false "" None "app.py" ex_now "light" false []
       (Some "JBSWY3DPEHPK3PXP") true 0)
    (at_rest ex_db_alice) [].

(* ================================================================== *)
(** ** Further vocabulary *)

(** The [UNIQUE] constraint on [users.email], and the form in which
    [register_user] stores an address. *)
Definition emails_wf (db : DB) : Prop :=
  NoDup (map email (users db)) /\
  forall r, In r (users db) -> lower (strip (email r)) = email r.

(** What [AUTOINCREMENT] keeps true of [users.id]. *)
Definition user_ids_wf (db : DB) : Prop :=
  0 <= users_seq db /\
  NoDup (map u_id (users db)) /\
  forall r, In r (users db) -> 0 < u_id r <= users_seq db.

(** A [users] row with another theme. *)
Definition with_theme (th : string) (r : user_row) : user_row :=
  mk_user (u_id r) (username r) (password_hash r) (email r) (Some th)
    (created_at r).

(** What the checks of [register_user] leave in a stored row. *)
Definition user_row_checked (r : user_row) : Prop :=
  (3 <= String.length (username r) <= 50)%nat /\
  re_match_anchored username_re (username r) = true /\
  re_match_anchored email_re (email r) = true.

(** How one call can change the [users] table. *)
Inductive users_change (db db' : DB) : Prop :=
| users_same :
    users db' = users db -> users_seq db' = users_seq db -> users_change db db'
| users_inserted : forall uname password mail salt cts,
    check_registration (strip uname) password (lower (strip mail)) = Ok tt ->
    users db' = (users db ++
                 [mk_user (users_seq db + 1) (strip uname)
                    (ph_hash salt password) (lower (strip mail))
                    (Some "light") cts])%list ->
    users_seq db' = users_seq db + 1 ->
    ~ In (strip uname) (map username (users db)) ->
    ~ In (lower (strip mail)) (map email (users db)) ->
    users_change db db'
| users_themed : forall th uid,
    users db' = map (fun r => if u_id r =? uid then with_theme th r else r)
                  (users db) ->
    users_seq db' = users_seq db -> users_change db db'
| users_deleted : forall uid,
    users db' = filter (fun r => negb (u_id r =? uid)) (users db) ->
    users_seq db' = users_seq db -> users_change db db'.



(** [YYYY-MM-DD HH:MM:SS], position by position. *)
Definition timestamp_shape (s : string) : bool :=
  match list_ascii_of_string s with
  | [y1; y2; y3; y4; s1; m1; m2; s2; d1; d2; s3; h1; h2; s4; n1; n2; s5; e1; e2] =>
      forallb is_digit [y1; y2; y3; y4; m1; m2; d1; d2; h1; h2; n1; n2; e1; e2]
      && Ascii.eqb s1 "-" && Ascii.eqb s2 "-" && Ascii.eqb s3 " "
      && Ascii.eqb s4 ":" && Ascii.eqb s5 ":"
  | _ => false
  end.


(** More concrete data: a second draw of random bytes and its token. *)
Definition ex_urandom2 : list byte := rev ex_urandom.

Definition ex_token2 : string :=
  Eval vm_compute in token_urlsafe (firstn 32 ex_urandom2).

(* ================================================================== *)
(** * Properties *)

(** ** The helpers on known inputs *)

Example username_re_ok : re_match_anchored username_re "alice_01" = true.
Proof. reflexivity. Qed.

Example username_re_space : re_match_anchored username_re "al ice" = false.
Proof. reflexivity. Qed.

(** [$] lets one newline follow, not two. *)
Example username_re_newline :
  re_match_anchored username_re (String.append "alice" (String "010"%char EmptyString))
    = true /\
  re_match_anchored username_re
    (String.append "alice" (String "010"%char (String "010"%char EmptyString)))
    = false.
Proof. split; reflexivity. Qed.

Example email_re_cases :
  re_match_anchored email_re "a.b@ex-ample.org" = true /\
  re_match_anchored email_re "a@b.c.d" = true /\
  re_match_anchored email_re ".@-.a" = true /\
  re_match_anchored email_re "a.b@example" = false /\
  re_match_anchored email_re "a@b@c.d" = false /\
  re_match_anchored email_re "a@.b" = false.
Proof. repeat split; reflexivity. Qed.

Example timestamp_re_cases :
  re_match_anchored timestamp_re "2024-05-01 12:30:00" = true /\
  re_match_anchored timestamp_re "2024-5-01 12:30:00" = false /\
  re_match_anchored timestamp_re "2024-05-01T12:30:00" = false.
Proof. repeat split; reflexivity. Qed.

Example strip_lower_cases :
  strip "  al ice  " = "al ice" /\
  strip (String "028"%char (String.append " alice" (String "009"%char EmptyString)))
    = "alice" /\
  lower "A.b@Ex.ORG" = "a.b@ex.org".
Proof. repeat split; reflexivity. Qed.

Example strftime_cases :
  strftime 0 = "1970-01-01 00:00:00" /\
  strftime (-1) = "1969-12-31 23:59:59" /\
  strftime (1714566600 * 1000000 + 999999) = "2024-05-01 12:30:00" /\
  strftime (1709251199 * 1000000) = "2024-02-29 23:59:59" /\
  strftime (4107542400 * 1000000) = "2100-03-01 00:00:00" /\
  strftime (253402300799 * 1000000) = "9999-12-31 23:59:59".
Proof. repeat split; vm_compute; reflexivity. Qed.

Example strftime_one_hour_later :
  strftime (ex_now + timedelta_hours 1) = "2024-05-01 13:30:00" /\
  strftime (1709251199 * 1000000 + timedelta_hours 1) = "2024-03-01 00:59:59".
Proof. split; vm_compute; reflexivity. Qed.

Example urlsafe_b64encode_cases :
  urlsafe_b64encode [x66; x6f; x6f; x62] = "Zm9vYg==" /\
  urlsafe_b64encode [x66; x6f; x6f; x62; x61] = "Zm9vYmE=" /\
  token_urlsafe [xfb; xff; xfe] = "-__-" /\
  token_urlsafe ex_urandom = "AAECAwQFBgcICQoLDA0OD_Dx8vP09fb3-Pn6-_z9_v8".
Proof. repeat split; reflexivity. Qed.

Example float_cases :
  float_integral 73.5 = None /\
  float_integral 12 = Some 12 /\
  int_le_real 73 73.5 = true /\
  real_le_int 73.5 73 = false /\
  check_passes (CheckRange 0 100) (SReal 73.5) = true /\
  check_passes (CheckRange 0 100) (SReal 100.5) = false /\
  apply_affinity AffInteger (SReal 5) = SInt 5 /\
  apply_affinity AffReal (SInt 22) = SReal 22.
Proof. repeat split; vm_compute; reflexivity. Qed.

(** ** Lists *)

Lemma find_finds : forall (A : Type) (p : A -> bool) (l : list A) (x : A),
    In x l -> p x = true -> exists y, find p l = Some y /\ p y = true.
Proof.
  induction l as [|a l IH]; intros x Hin Hp; [contradiction|].
  simpl. destruct (p a) eqn:Ea.
  - exists a. auto.
  - destruct Hin as [->|Hin]; [congruence|]. eauto.
Qed.

Lemma existsb_In : forall (A : Type) (p : A -> bool) (l : list A) (x : A),
    In x l -> p x = true -> existsb p l = true.
Proof.
  intros A p l x Hin Hp. apply existsb_exists. eauto.
Qed.

Lemma filter_neg_filter_nil : forall (A : Type) (p : A -> bool) (l : list A),
    filter p (filter (fun x => negb (p x)) l) = [].
Proof.
  induction l as [|a l IH]; simpl; auto.
  destruct (p a) eqn:E; simpl; auto. rewrite E. auto.
Qed.

(** ** The connection *)

Lemma settled_same : forall w, txn w = disk w -> settled w (disk w) = w.
Proof. intros [d t fs b l] H. simpl in H. subst. reflexivity. Qed.

Lemma with_connection_closes : forall (A : Type) (body : Py world A) w,
    txn (snd (with_connection body w)) = disk (snd (with_connection body w)).
Proof.
  intros A body w. unfold with_connection.
  destruct (body w) as [[a|e] w']; reflexivity.
Qed.

(** ** verify_password *)

(** C10. [verify_password] returns a boolean for every password and every
    stored hash, whatever [ph.verify] does with them, and the boolean is
    [False] whenever [ph.verify] raises. *)
Theorem verify_password_total :
  forall password hashed : string,
    exists b : bool,
      verify_password password hashed = Ok b /\
      (forall e, ph_verify hashed password = Raise e -> b = false) /\
      (forall b', ph_verify hashed password = Ok b' -> b = b').
Proof.
  intros password hashed. unfold verify_password.
  destruct (ph_verify hashed password) as [b | e].
  - exists b. repeat split; congruence.
  - exists false. repeat split; congruence.
Qed.

(** ** save_patient_data *)

(** C5. A call of [save_patient_data] in which a field is [None] or a
    numeric field is negative raises [ValueError], and the [patients]
    table (the whole connection, in fact) is as it was. *)
Theorem save_patient_data_rejects :
  forall (w : world) (user_id : Z) (kwargs : list (string * pyval))
         (current_timestamp : string) (k : string) (v : pyval),
    In (k, v) kwargs ->
    v = PNone \/ negative_number v ->
    exists msg,
      save_patient_data user_id kwargs current_timestamp w
        = (Raise (ValueError msg), w) /\
      List.length (patients (disk (snd (save_patient_data user_id kwargs
                                          current_timestamp w))))
        = List.length (patients (disk w)).
Proof.
  intros w user_id kwargs cts k v Hin Hv.
  unfold save_patient_data.
  destruct (existsb (fun kv => is_None (snd kv)) kwargs) eqn:Enone.
  - eexists. split; reflexivity.
  - destruct Hv as [-> | Hneg].
    + assert (existsb (fun kv => is_None (snd kv)) kwargs = true) as E
        by (apply existsb_In with (x := (k, PNone)); auto).
      congruence.
    + assert (existsb (fun kv => isinstance_int_float (snd kv)
                                 && num_lt_zero (snd kv)) kwargs = true) as E.
      { apply existsb_In with (x := (k, v)); auto.
        destruct Hneg as [z Hz | f Hf]; simpl; auto.
        apply Z.ltb_lt. exact Hz. }
      rewrite E. eexists. split; reflexivity.
Qed.

(** ** Reset tokens *)

Lemma get_reset_token_reads : forall w tok now,
    txn w = disk w -> faults w = [] ->
    get_reset_token tok now w = (Ok (select_reset tok (strftime now) (disk w)), w).
Proof.
  intros [d t fs b l] tok now Ht Hf. simpl in Ht, Hf. subst. reflexivity.
Qed.

Lemma create_reset_token_runs : forall w uid urandom now cts,
    txn w = disk w -> faults w = [] ->
    create_reset_token uid urandom now cts w =
      (Ok (token_urlsafe (firstn 32 urandom)),
       settled w
         (set_password_resets (disk w)
            (filter (fun r => negb (r_user_id r =? uid)) (password_resets (disk w))
             ++ [mk_reset (password_resets_seq (disk w) + 1) uid
                   (token_urlsafe (firstn 32 urandom)) cts
                   (strftime (now + timedelta_hours 1))])
            (password_resets_seq (disk w) + 1))).
Proof.
  intros [d t fs b l] uid urandom now cts Ht Hf. simpl in Ht, Hf. subst.
  reflexivity.
Qed.

(** *** The token text *)











Lemma filter_filter_length : forall (A : Type) (p q : A -> bool) (l : list A),
    (List.length (filter p (filter q l)) <= List.length (filter p l))%nat.
Proof.
  induction l as [|a l IH]; simpl; auto.
  destruct (q a) eqn:Eq, (p a) eqn:Ep; simpl; rewrite ?Ep; simpl; lia.
Qed.

Lemma resets_of_replace : forall uid db row n,
    r_user_id row = uid ->
    resets_of uid
      (set_password_resets db
         (filter (fun r => negb (r_user_id r =? uid)) (password_resets db) ++ [row]) n)
    = [row].
Proof.
  intros uid db row n H. unfold resets_of. cbn [password_resets set_password_resets].
  rewrite filter_app.
  rewrite (filter_neg_filter_nil (fun r => r_user_id r =? uid)).
  simpl. rewrite H, Z.eqb_refl. reflexivity.
Qed.

Lemma one_token_replace : forall uid db row n,
    r_user_id row = uid ->
    one_token_per_user db ->
    one_token_per_user
      (set_password_resets db
         (filter (fun r => negb (r_user_id r =? uid)) (password_resets db) ++ [row]) n).
Proof.
  intros uid db row n Hrow Hone u.
  destruct (Z.eq_dec u uid) as [->|Hne].
  - rewrite resets_of_replace by exact Hrow. simpl. lia.
  - unfold resets_of. cbn [password_resets set_password_resets].
    rewrite filter_app. simpl.
    replace (r_user_id row =? u) with false by (symmetry; apply Z.eqb_neq; congruence).
    rewrite app_nil_r.
    etransitivity; [apply filter_filter_length|]. apply Hone.
Qed.

(** C1, as the code has it.  [get_reset_token] only reads.  After
    [create_reset_token] has issued a token, every lookup made while the
    text of the clock is below the stored [expires_at] finds a row for
    it and leaves the database as it was, so a second lookup succeeds as
    the first did. *)
Theorem reset_token_lookup_repeatable :
  forall (w : world) (user_id : Z) (urandom : list byte) (now : datetime)
         (current_timestamp tok : string) (w1 : world) (t1 t2 : datetime),
    txn w = disk w -> faults w = [] ->
    create_reset_token user_id urandom now current_timestamp w = (Ok tok, w1) ->
    String.ltb (strftime t1) (strftime (now + timedelta_hours 1)) = true ->
    String.ltb (strftime t2) (strftime (now + timedelta_hours 1)) = true ->
    exists row1 row2,
      get_reset_token tok t1 w1 = (Ok (Some row1), w1) /\
      get_reset_token tok t2 w1 = (Ok (Some row2), w1) /\
      token row1 = tok /\ token row2 = tok.
Proof.
  intros w uid urandom now cts tok w1 t1 t2 Ht Hf Hcreate H1 H2.
  rewrite create_reset_token_runs in Hcreate by assumption.
  injection Hcreate as Htok Hw1.
  assert (txn w1 = disk w1 /\ faults w1 = []) as [Ht1 Hf1]
    by (subst w1; split; [reflexivity | exact Hf]).
  rewrite !get_reset_token_reads by assumption.
  set (row := mk_reset (password_resets_seq (disk w) + 1) uid tok cts
                (strftime (now + timedelta_hours 1))).
  assert (In row (password_resets (disk w1))) as Hin.
  { subst w1. cbn [disk settled password_resets set_password_resets].
    apply in_or_app. right. left. subst row. rewrite Htok. reflexivity. }
  assert (forall t, String.ltb (strftime t) (strftime (now + timedelta_hours 1)) = true ->
            exists r, select_reset tok (strftime t) (disk w1) = Some r /\ token r = tok)
    as Hfind.
  { intros t Hlt. unfold select_reset.
    destruct (find_finds
                (fun r => String.eqb (token r) tok && String.ltb (strftime t) (expires_at r))
                (password_resets (disk w1)) row Hin) as (r & Hr & Hp).
    - subst row. cbn [token expires_at]. rewrite String.eqb_refl. exact Hlt.
    - exists r. split; [exact Hr|].
      apply andb_true_iff in Hp. destruct Hp as [Hp _].
      apply String.eqb_eq. exact Hp. }
  destruct (Hfind t1 H1) as (r1 & E1 & T1).
  destruct (Hfind t2 H2) as (r2 & E2 & T2).
  exists r1, r2. rewrite E1, E2. auto.
Qed.


(** ** Predictions *)

Lemma str_empty_false : forall s, s <> EmptyString -> str_empty s = false.
Proof. intros [|c s] H; [congruence | reflexivity]. Qed.

Lemma get_user_predictions_reads : forall w uid ty,
    txn w = disk w -> faults w = [] ->
    get_user_predictions uid ty w =
      (Ok (map (fun r => mk_prediction_record (p_id r) (p_user_id r)
                           (prediction_type r) (to_numeric (probability r))
                           (outcome r) (timestamp r))
             (select_predictions uid (truthy_str ty) (disk w))), w).
Proof.
  intros [d t fs b l] uid ty Ht Hf. simpl in Ht, Hf. subst. reflexivity.
Qed.

Lemma save_prediction_73_5_runs : forall w uid ty out ts,
    txn w = disk w -> faults w = [] ->
    0 < uid -> int64_ok uid = true -> ty <> EmptyString ->
    strip out <> EmptyString -> re_match_anchored timestamp_re ts = true ->
    save_prediction (PInt uid) (PStr ty) (PFloat 73.5) (PStr out) (PStr ts) w =
      (Ok tt,
       settled w
         (set_predictions (disk w)
            (predictions (disk w)
             ++ [mk_prediction (predictions_seq (disk w) + 1) uid ty (SReal 73.5) out ts])
            (predictions_seq (disk w) + 1))).
Proof.
  intros [d t fs b l] uid ty out ts Ht Hf Hpos H64 Hty Hout Hts.
  simpl in Ht, Hf. subst.
  unfold save_prediction, check_prediction, bind, lift.
  cbn [as_int as_str].
  replace (uid <=? 0) with false by (symmetry; apply Z.leb_gt; exact Hpos).
  rewrite (str_empty_false Hty), (str_empty_false Hout), Hts.
  cbn -[insert_prediction]. rewrite H64.
  reflexivity.
Qed.

(** C9. A prediction saved with probability 73.5 is read back by
    [get_user_predictions] with [probability] equal to 73.5: the value
    goes to the [REAL] column and comes back as the same double. *)
Theorem prediction_probability_round_trip :
  forall (w : world) (uid : Z) (ty out ts : string),
    txn w = disk w -> faults w = [] ->
    0 < uid -> int64_ok uid = true -> ty <> EmptyString ->
    strip out <> EmptyString -> re_match_anchored timestamp_re ts = true ->
    exists w1 before rec,
      save_prediction (PInt uid) (PStr ty) (PFloat 73.5) (PStr out) (PStr ts) w
        = (Ok tt, w1) /\
      get_user_predictions uid None w = (Ok before, w) /\
      get_user_predictions uid None w1 = (Ok (before ++ [rec])%list, w1) /\
      df_probability rec = 73.5%float /\
      df_user_id rec = uid /\ df_prediction_type rec = ty /\
      df_outcome rec = out /\ df_timestamp rec = ts.
Proof.
  intros w uid ty out ts Ht Hf Hpos H64 Hty Hout Hts.
  rewrite save_prediction_73_5_runs by assumption.
  do 3 eexists. split; [reflexivity|].
  rewrite get_user_predictions_reads by assumption.
  split; [reflexivity|].
  rewrite get_user_predictions_reads by (try reflexivity; exact Hf).
  cbn [disk settled truthy_str].
  unfold select_predictions. cbn [predictions set_predictions].
  rewrite filter_app, map_app. cbn [filter p_user_id prediction_type].
  rewrite Z.eqb_refl. cbn [andb map].
  split; [reflexivity|]. cbn. repeat split.
Qed.

(** ** Users *)

Lemma lstrip_no_lead : forall s,
    match lstrip s with String c _ => is_space c = false | EmptyString => True end.
Proof.
  induction s as [|c s IH]; simpl; auto.
  destruct (is_space c) eqn:E; auto.
Qed.

Lemma lstrip_id : forall s,
    match s with String c _ => is_space c = false | EmptyString => True end ->
    lstrip s = s.
Proof. intros [|c s] H; simpl; auto. rewrite H. reflexivity. Qed.

Lemma rstrip_no_lead : forall s,
    match s with String c _ => is_space c = false | EmptyString => True end ->
    match rstrip s with String c _ => is_space c = false | EmptyString => True end.
Proof.
  intros [|c s] H; simpl; auto.
  destruct (rstrip s); [rewrite H|]; exact H.
Qed.

Lemma rstrip_idem : forall s, rstrip (rstrip s) = rstrip s.
Proof.
  induction s as [|c s IH]; simpl; auto.
  destruct (rstrip s) as [|d u] eqn:E.
  - destruct (is_space c) eqn:Ec; simpl; auto. rewrite Ec. reflexivity.
  - change (rstrip (String c (String d u))) with
      (match rstrip (String d u) with
       | EmptyString => if is_space c then EmptyString else String c EmptyString
       | t => String c t
       end).
    rewrite IH. reflexivity.
Qed.

Lemma strip_idem : forall s, strip (strip s) = strip s.
Proof.
  intro s. unfold strip.
  rewrite (lstrip_id (rstrip (lstrip s))).
  - apply rstrip_idem.
  - apply rstrip_no_lead, lstrip_no_lead.
Qed.

Lemma find_unique : forall (l : list user_row) (x : user_row),
    NoDup (map username l) -> In x l ->
    find (fun r => String.eqb (username r) (username x)) l = Some x.
Proof.
  induction l as [|a l IH]; intros x Hnd Hin; [contradiction|].
  simpl in Hnd. inversion Hnd as [|? ? Hnotin Hnd']; subst.
  simpl. destruct Hin as [->|Hin].
  - rewrite String.eqb_refl. reflexivity.
  - destruct (String.eqb_spec (username a) (username x)) as [E|E].
    + exfalso. apply Hnotin. rewrite E. apply in_map. exact Hin.
    + apply IH; assumption.
Qed.

Lemma authenticate_user_reads : forall w uname password,
    txn w = disk w -> faults w = [] ->
    authenticate_user uname password w =
      (match select_user_by_username (strip uname) (disk w) with
       | Some u =>
           match verify_password password (password_hash u) with
           | Ok true => Ok (Some u)
           | Ok false => Ok None
           | Raise e => Raise e
           end
       | None => Ok None
       end, w).
Proof.
  intros [d t fs b l] uname password Ht Hf. simpl in Ht, Hf. subst.
  cbv [authenticate_user with_connection bind fetch fault_point lift ret
         faults txn disk set_disk set_txn].
  destruct (select_user_by_username (strip uname) d) as [u|]; [|reflexivity].
  destruct (verify_password password (password_hash u)) as [[|]|e]; reflexivity.
Qed.

Lemma register_user_runs : forall w uname password mail salt cts,
    txn w = disk w -> faults w = [] ->
    check_registration (strip uname) password (lower (strip mail)) = Ok tt ->
    register_user uname password mail salt cts w =
      match insert_user (strip uname) (hash_password salt password)
              (lower (strip mail)) cts (disk w) with
      | Ok db => (Ok true, settled w db)
      | Raise IntegrityError => (Ok false, w)
      | Raise e => (Raise e, w)
      end.
Proof.
  intros [d t fs b l] uname password mail salt cts Ht Hf Hc. simpl in Ht, Hf. subst.
  unfold register_user, try_except, bind at 1, lift at 1. rewrite Hc.
  cbv [with_connection bind lift execute commit fault_point ret raise
         faults txn disk set_disk set_txn settled backup_file last_backup_time].
  destruct (insert_user (strip uname) (hash_password salt password)
              (lower (strip mail)) cts d) as [db|e]; [reflexivity|].
  destruct e; reflexivity.
Qed.

Lemma register_user_invalid : forall w uname password mail salt cts e,
    check_registration (strip uname) password (lower (strip mail)) = Raise e ->
    exists msg, e = ValueError msg /\
      register_user uname password mail salt cts w = (Raise (ValueError msg), w).
Proof.
  intros w uname password mail salt cts e Hc.
  assert (exists msg, e = ValueError msg) as [msg ->].
  { revert Hc. unfold check_registration.
    repeat match goal with
           | |- context [if ?c then _ else _] => destruct c
           end; intro H; inversion H; eauto. }
  exists msg. split; [reflexivity|].
  unfold register_user, try_except, bind, lift. rewrite Hc. reflexivity.
Qed.

Lemma insert_user_taken : forall r db uname hash mail cts,
    In r (users db) ->
    username r = uname \/ email r = mail ->
    insert_user uname hash mail cts db = Raise IntegrityError.
Proof.
  intros r db uname hash mail cts Hin Hdup. unfold insert_user.
  rewrite (@existsb_In _ _ _ r Hin); [reflexivity|].
  apply orb_true_iff.
  destruct Hdup as [<-|<-]; [left|right]; apply String.eqb_refl.
Qed.

(** ** Failures of the driver *)

(** Case analysis on what the driver does at the next call. *)
Ltac next_fault :=
  match goal with
  | |- context [match ?fs with [] => _ | _ :: _ => _ end] =>
      is_var fs; destruct fs as [|[|] fs]
  end.

Ltac run_py :=
  cbv [with_connection bind lift execute commit fetch fault_point ret raise
         try_except backup_database
         faults txn disk set_disk set_txn set_faults set_backup settled
         backup_file last_backup_time fst snd].

(** ** delete_user *)

Lemma cascade_four_deletes : forall uid db,
    (match delete_resets_where_user uid db with
     | Ok db1 =>
         match delete_predictions_where_user uid db1 with
         | Ok db2 =>
             match delete_patients_where_user uid db2 with
             | Ok db3 => delete_users_where_id uid db3
             | Raise e => Raise e
             end
         | Raise e => Raise e
         end
     | Raise e => Raise e
     end) = Ok (cascade uid db).
Proof. intros uid db. reflexivity. Qed.

Lemma cascade_purges : forall uid db,
    resets_of uid (cascade uid db) = [] /\
    predictions_of uid (cascade uid db) = [] /\
    patients_of uid (cascade uid db) = [] /\
    users_with_id uid (cascade uid db) = [].
Proof.
  intros uid db.
  unfold resets_of, predictions_of, patients_of, users_with_id, cascade.
  cbn [password_resets predictions patients users].
  repeat split.
  - apply (filter_neg_filter_nil (fun r => r_user_id r =? uid)).
  - apply (filter_neg_filter_nil (fun r => p_user_id r =? uid)).
  - apply (filter_neg_filter_nil (fun r => pt_user_id r =? uid)).
  - apply (filter_neg_filter_nil (fun r => u_id r =? uid)).
Qed.

Lemma delete_user_outcome : forall w uid now,
    txn w = disk w ->
    let out := delete_user uid now w in
    txn (snd out) = disk (snd out) /\
    ((fst out = Ok tt /\ disk (snd out) = cascade uid (disk w)) \/
     (fst out = Raise OperationalError /\ disk (snd out) = disk w) \/
     (fst out = Raise OSError /\ disk (snd out) = cascade uid (disk w))) /\
    (faults w = [] -> fst out = Ok tt).
Proof.
  intros [d t fs b l] uid now Ht. simpl in Ht. subst t.
  unfold delete_user.
  cbv [delete_resets_where_user delete_predictions_where_user
         delete_patients_where_user delete_users_where_id].
  run_py.
  repeat (next_fault; run_py; cbn [fst snd];
          try (split; [reflexivity | split; [auto | intro; auto; discriminate]])).
  all: destruct l as [t0|]; [destruct (timedelta_days 1 <=? now - t0)|]; cbn;
    try next_fault; cbn;
    (split; [reflexivity | split; [auto | intro; auto; discriminate]]).
Qed.

(** C4. [delete_user] is all or nothing.  Whatever fails, the committed
    database afterwards is either the one before (an error from the
    driver: nothing was deleted) or the one with every row of the user
    deleted from [password_resets], [predictions], [patients] and
    [users]; it is the latter whenever the call returns, and the call
    returns when nothing fails.  In that database no row of the three
    dependent tables has the user's id and no [users] row has it. *)
Theorem delete_user_cascades_atomically :
  forall (w : world) (user_id : Z) (now : datetime),
    txn w = disk w ->
    let out := delete_user user_id now w in
    (disk (snd out) = disk w \/ disk (snd out) = cascade user_id (disk w)) /\
    (forall e, fst out = Raise e ->
       (e = OperationalError /\ disk (snd out) = disk w) \/
       (e = OSError /\ disk (snd out) = cascade user_id (disk w))) /\
    (fst out = Ok tt -> disk (snd out) = cascade user_id (disk w)) /\
    (faults w = [] -> fst out = Ok tt) /\
    txn (snd out) = disk (snd out) /\
    resets_of user_id (cascade user_id (disk w)) = [] /\
    predictions_of user_id (cascade user_id (disk w)) = [] /\
    patients_of user_id (cascade user_id (disk w)) = [] /\
    users_with_id user_id (cascade user_id (disk w)) = [].
Proof.
  intros w uid now Ht out.
  destruct (delete_user_outcome w uid now Ht) as (Hclosed & Hout & Hok).
  fold out in Hclosed, Hout, Hok.
  destruct (cascade_purges uid (disk w)) as (P1 & P2 & P3 & P4).
  repeat split; auto.
  - destruct Hout as [[_ H]|[[_ H]|[_ H]]]; auto.
  - intros e He. rewrite He in Hout.
    destruct Hout as [[H _]|[[H D]|[H D]]]; [discriminate| |];
      injection H as ->; auto.
  - intro He. rewrite He in Hout.
    destruct Hout as [[_ D]|[[H _]|[H _]]]; [exact D|discriminate|discriminate].
Qed.

(** ** register_user *)

Lemma register_user_outcome : forall w uname password mail salt cts,
    txn w = disk w ->
    let out := register_user uname password mail salt cts w in
    txn (snd out) = disk (snd out) /\
    (disk (snd out) = disk w \/
     (fst out = Ok true /\
      insert_user (strip uname) (hash_password salt password)
        (lower (strip mail)) cts (disk w) = Ok (disk (snd out)))).
Proof.
  intros [d t fs b l] uname password mail salt cts Ht. simpl in Ht. subst t.
  unfold register_user.
  destruct (check_registration (strip uname) password (lower (strip mail)))
    as [[]|e] eqn:Hc.
  - run_py.
    repeat (next_fault; run_py; cbn [fst snd]; try (split; [reflexivity | auto]));
      destruct (insert_user (strip uname) (hash_password salt password)
                  (lower (strip mail)) cts d) as [db|e] eqn:Hi;
      try (destruct e); cbn [fst snd disk txn];
      repeat (next_fault; cbn [fst snd disk txn]);
      (split; [reflexivity | auto]).
  - destruct (register_user_invalid
                {| disk := d; txn := d; faults := fs; backup_file := b;
                   last_backup_time := l |} uname password mail salt cts Hc)
      as (msg & -> & Hr).
    unfold register_user in Hr. rewrite Hc in Hr. rewrite Hr.
    cbn [fst snd disk txn]. auto.
Qed.



(** ** What every call keeps true *)

Lemma insert_user_appends : forall uname hash mail cts db db',
    insert_user uname hash mail cts db = Ok db' ->
    db' = set_users db
            (users db ++ [mk_user (users_seq db + 1) uname hash mail
                            (Some "light") cts])
            (users_seq db + 1) /\
    ~ In uname (map username (users db)).
Proof.
  intros uname hash mail cts db db'. unfold insert_user.
  destruct (existsb _ (users db)) eqn:E; [discriminate|].
  intro H. injection H as <-. split; [reflexivity|].
  intro Hin. apply in_map_iff in Hin. destruct Hin as (r & Hr & Hin).
  assert (existsb (fun r => String.eqb (username r) uname || String.eqb (email r) mail)
            (users db) = true) as E'.
  { apply existsb_In with (x := r); auto.
    rewrite Hr, String.eqb_refl. reflexivity. }
  congruence.
Qed.

Lemma insert_user_wf : forall uname hash mail cts db db',
    strip uname = uname ->
    users_wf db ->
    insert_user uname hash mail cts db = Ok db' ->
    users_wf db'.
Proof.
  intros uname hash mail cts db db' Hs [Hnd Hst] Hi.
  apply insert_user_appends in Hi. destruct Hi as [-> Hfresh].
  unfold users_wf. cbn [users set_users]. split.
  - rewrite map_app. apply NoDup_app; auto.
    + simpl. constructor; [intros []|constructor].
    + intros a Ha [<-|[]]. contradiction.
  - intros r Hin. apply in_app_or in Hin. destruct Hin as [Hin|[<-|[]]]; auto.
Qed.

Lemma NoDup_usernames_filter : forall (p : user_row -> bool) (l : list user_row),
    NoDup (map username l) -> NoDup (map username (filter p l)).
Proof.
  induction l as [|a us IH]; simpl; auto.
  intro Hnd. inversion Hnd as [|? ? Hnotin Hnd']; subst.
  destruct (p a); simpl; auto.
  constructor; auto.
  intro Hin. apply Hnotin. apply in_map_iff in Hin.
  destruct Hin as (r & Hr & Hin). apply filter_In in Hin.
  apply in_map_iff. exists r. tauto.
Qed.

Lemma users_wf_filter : forall db (p : user_row -> bool) l,
    NoDup (map username (users db)) ->
    (forall r, In r (users db) -> strip (username r) = username r) ->
    l = filter p (users db) ->
    NoDup (map username l) /\ (forall r, In r l -> strip (username r) = username r).
Proof.
  intros db p l Hnd Hst ->. split.
  - apply NoDup_usernames_filter. exact Hnd.
  - intros r Hin. apply filter_In in Hin. apply Hst. tauto.
Qed.

Lemma users_wf_cascade : forall uid db, users_wf db -> users_wf (cascade uid db).
Proof.
  intros uid db [Hnd Hst]. unfold users_wf. cbn [users cascade].
  eapply users_wf_filter; eauto.
Qed.

Lemma users_wf_theme : forall th uid db db',
    users_wf db -> update_theme th uid db = Ok db' -> users_wf db'.
Proof.
  intros th uid db db' [Hnd Hst] H. injection H as <-.
  unfold users_wf. cbn [users set_users]. split.
  - rewrite map_map.
    erewrite map_ext; [exact Hnd|].
    intro r. cbn beta. destruct (u_id r =? uid); reflexivity.
  - intros r Hin. apply in_map_iff in Hin. destruct Hin as (r0 & <- & Hin).
    destruct (u_id r0 =? uid); cbn [username]; auto.
Qed.

Lemma one_token_filter : forall db (p : reset_row -> bool) n,
    one_token_per_user db ->
    one_token_per_user (set_password_resets db (filter p (password_resets db)) n).
Proof.
  intros db p n H uid. unfold resets_of. cbn [password_resets set_password_resets].
  etransitivity; [apply filter_filter_length|]. apply H.
Qed.

Lemma one_token_cascade : forall uid db,
    one_token_per_user db -> one_token_per_user (cascade uid db).
Proof.
  intros uid db H u. unfold resets_of. cbn [password_resets cascade].
  etransitivity; [apply filter_filter_length|]. apply H.
Qed.

Lemma store_ok_same_tables : forall db db',
    users db' = users db -> password_resets db' = password_resets db ->
    store_ok db -> store_ok db'.
Proof.
  intros db db' Hu Hr [[Hnd Hst] Hone]. split.
  - unfold users_wf. rewrite Hu. auto.
  - intro uid. unfold resets_of. rewrite Hr. apply Hone.
Qed.

Ltac all_faults :=
  run_py; cbn [fst snd];
  repeat (next_fault; run_py; cbn [fst snd]).

Lemma init_db_outcome : forall w now,
    txn w = disk w ->
    txn (snd (init_db now w)) = disk (snd (init_db now w)) /\
    disk (snd (init_db now w)) = disk w.
Proof.
  intros [d t fs b l] now Ht. simpl in Ht. subst t.
  unfold init_db. cbv [create_if_not_exists]. cbn [orb].
  all_faults; auto.
Qed.

Lemma create_reset_token_outcome : forall w uid urandom now cts,
    txn w = disk w ->
    let out := create_reset_token uid urandom now cts w in
    txn (snd out) = disk (snd out) /\
    (disk (snd out) = disk w \/
     exists row n,
       r_user_id row = uid /\
       disk (snd out) =
         set_password_resets (disk w)
           (filter (fun r => negb (r_user_id r =? uid)) (password_resets (disk w))
            ++ [row]) n).
Proof.
  intros [d t fs b l] uid urandom now cts Ht. simpl in Ht. subst t.
  unfold create_reset_token.
  cbv [delete_resets_where_user insert_reset].
  all_faults; cbn [password_resets set_password_resets password_resets_seq];
    (split; [reflexivity|]); auto;
    right; eexists (mk_reset _ uid _ _ _), _; split; reflexivity.
Qed.

Lemma cleanup_expired_tokens_outcome : forall w now,
    txn w = disk w ->
    let out := cleanup_expired_tokens now w in
    txn (snd out) = disk (snd out) /\
    (disk (snd out) = disk w \/
     disk (snd out) =
       set_password_resets (disk w)
         (filter (fun r => negb (String.leb (expires_at r) (strftime now)))
            (password_resets (disk w)))
         (password_resets_seq (disk w))).
Proof.
  intros [d t fs b l] now Ht. simpl in Ht. subst t.
  unfold cleanup_expired_tokens. cbv [delete_resets_expired].
  all_faults; (split; [reflexivity|]); auto.
Qed.

Lemma update_user_theme_outcome : forall w uid th,
    txn w = disk w ->
    let out := update_user_theme uid th w in
    txn (snd out) = disk (snd out) /\
    (disk (snd out) = disk w \/ update_theme th uid (disk w) = Ok (disk (snd out))).
Proof.
  intros [d t fs b l] uid th Ht. simpl in Ht. subst t.
  unfold update_user_theme.
  destruct (negb (String.eqb th "light" || String.eqb th "dark")).
  - cbn. auto.
  - cbv [update_theme]. all_faults; (split; [reflexivity|]); auto.
Qed.

Lemma save_prediction_outcome : forall w uid ty p out ts,
    txn w = disk w ->
    let o := save_prediction uid ty p out ts w in
    txn (snd o) = disk (snd o) /\
    users (disk (snd o)) = users (disk w) /\
    password_resets (disk (snd o)) = password_resets (disk w).
Proof.
  intros [d t fs b l] uid ty p out ts Ht. simpl in Ht. subst t.
  unfold save_prediction.
  destruct (check_prediction uid ty p out ts) as [[[[[u y] q] o] s]|e];
    [|cbn; auto].
  run_py.
  destruct (bind_param (PFloat q)) as [v|e]; [|cbn; auto].
  unfold insert_prediction.
  destruct (int64_ok u);
    [destruct (check_passes (CheckRange 0 100) (apply_affinity AffReal v))|];
    all_faults; auto.
Qed.

Lemma save_patient_data_outcome : forall w uid kw cts,
    txn w = disk w ->
    let o := save_patient_data uid kw cts w in
    txn (snd o) = disk (snd o) /\
    users (disk (snd o)) = users (disk w) /\
    password_resets (disk (snd o)) = password_resets (disk w).
Proof.
  intros [d t fs b l] uid kw cts Ht. simpl in Ht. subst t.
  unfold save_patient_data.
  destruct (existsb (fun kv => is_None (snd kv)) kw); [cbn; auto|].
  destruct (existsb _ kw); [cbn; auto|].
  run_py.
  destruct (bind_params kw) as [vs|e]; [|cbn; auto].
  unfold insert_patient.
  destruct (forallb (fun c => known_patient_column (fst c)) vs);
    all_faults;
    repeat match goal with
           | |- context [store_patient_columns ?t ?v ?r] =>
               destruct (store_patient_columns t v r) as [row|e]
           end;
    all_faults; auto.
Qed.

Lemma run_call_keeps : forall c w,
    txn w = disk w -> store_ok (disk w) ->
    txn (run_call c w) = disk (run_call c w) /\ store_ok (disk (run_call c w)).
Proof.
  intros c w Ht Hok. destruct c; cbn [run_call].
  - destruct (init_db_outcome w now Ht) as [H1 H2]. rewrite H1, H2. auto.
  - destruct (register_user_outcome w uname password mail salt cts Ht)
      as [H1 [H2 | [_ H2]]]; split; auto.
    + rewrite H2. exact Hok.
    + destruct Hok as [Hu Hone]. split.
      * eapply insert_user_wf; [apply strip_idem | exact Hu | exact H2].
      * apply insert_user_appends in H2. destruct H2 as [H2 _].
        intro u. unfold resets_of. rewrite H2. apply Hone.
  - destruct (create_reset_token_outcome w uid urandom now cts Ht)
      as [H1 [H2 | (row & n & Hrow & H2)]]; split; auto.
    + rewrite H2. exact Hok.
    + rewrite H2. destruct Hok as [Hu Hone]. split.
      * exact Hu.
      * apply one_token_replace; assumption.
  - destruct (cleanup_expired_tokens_outcome w now Ht) as [H1 [H2 | H2]];
      split; auto; rewrite H2; [exact Hok|].
    destruct Hok as [Hu Hone]. split; [exact Hu | apply one_token_filter; exact Hone].
  - destruct (update_user_theme_outcome w uid th Ht) as [H1 [H2 | H2]];
      split; auto; [rewrite H2; exact Hok|].
    destruct Hok as [Hu Hone]. split.
    + eapply users_wf_theme; eassumption.
    + injection H2 as H2. intro u. unfold resets_of. rewrite <- H2. apply Hone.
  - destruct (delete_user_outcome w uid now Ht) as (H1 & H2 & _).
    split; [exact H1|].
    destruct H2 as [[_ H2] | [[_ H2] | [_ H2]]]; rewrite H2; auto;
      destruct Hok as [Hu Hone];
      (split; [apply users_wf_cascade | apply one_token_cascade]); assumption.
  - destruct (save_prediction_outcome w uid ty p out ts Ht) as (H1 & H2 & H3).
    split; [exact H1|]. eapply store_ok_same_tables; eassumption.
  - destruct (save_patient_data_outcome w uid kwargs cts Ht) as (H1 & H2 & H3).
    split; [exact H1|]. eapply store_ok_same_tables; eassumption.
Qed.

(** In every state the application can reach no transaction is open,
    usernames are unique and stored stripped, and no user has more than
    one reset token. *)
Lemma reachable_ok : forall w,
    reachable w -> txn w = disk w /\ store_ok (disk w).
Proof.
  induction 1 as [|w c Hr [Ht Hok]|w fs Hr [Ht Hok]].
  - split; [reflexivity|]. split; [split|].
    + constructor.
    + intros r [].
    + intro uid. simpl. lia.
  - apply run_call_keeps; assumption.
  - split; assumption.
Qed.

(** ** create_reset_token *)


(** ** authenticate_user *)

Lemma register_user_true : forall w uname password mail salt cts w1,
    txn w = disk w -> faults w = [] ->
    register_user uname password mail salt cts w = (Ok true, w1) ->
    insert_user (strip uname) (hash_password salt password) (lower (strip mail))
      cts (disk w) = Ok (disk w1) /\
    txn w1 = disk w1 /\ faults w1 = [].
Proof.
  intros w uname password mail salt cts w1 Ht Hf H.
  destruct (check_registration (strip uname) password (lower (strip mail)))
    as [[]|e] eqn:Hc.
  - rewrite register_user_runs in H by assumption.
    destruct (insert_user _ _ _ cts (disk w)) as [db|e]; [|destruct e; discriminate].
    injection H as <-. auto.
  - destruct (register_user_invalid w uname password mail salt cts Hc)
      as (msg & _ & H'). congruence.
Qed.

(** ** register_user, a second time *)

Lemma users_named_fresh : forall uname (l : list user_row),
    ~ In uname (map username l) ->
    filter (fun r => String.eqb (username r) uname) l = [].
Proof using Type.
  induction l as [|a l IH]; simpl; intro H; auto.
  destruct (String.eqb_spec (username a) uname) as [E|E].
  - exfalso. apply H. left. exact E.
  - apply IH. intro Hin. apply H. right. exact Hin.
Qed.


(** C7. The row that [register_user] stores holds [hash_password] of the
    password, not the password.  In every later state in which that row
    is still in [users], [authenticate_user] with the registered
    username and password returns the row, and with any other password
    returns [None]; the password is only ever handed to [ph.verify]
    together with the stored hash. *)
Theorem authenticate_registered_user :
  forall (w : world) (uname password mail : string) (salt : list byte)
         (cts : string) (w1 : world),
    txn w = disk w -> faults w = [] -> users_wf (disk w) ->
    register_user uname password mail salt cts w = (Ok true, w1) ->
    exists row,
      users (disk w1) = (users (disk w) ++ [row])%list /\
      username row = strip uname /\
      password_hash row = hash_password salt password /\
      txn w1 = disk w1 /\ faults w1 = [] /\ users_wf (disk w1) /\
      forall w2,
        txn w2 = disk w2 -> faults w2 = [] -> users_wf (disk w2) ->
        In row (users (disk w2)) ->
        authenticate_user uname password w2 = (Ok (Some row), w2) /\
        forall wrong, wrong <> password ->
          authenticate_user uname wrong w2 = (Ok None, w2).
Proof.
  intros w uname password mail salt cts w1 Ht Hf Hwf Hreg.
  destruct (@register_user_true w uname password mail salt cts w1 Ht Hf Hreg)
    as (Hins & Ht1 & Hf1).
  pose proof (@insert_user_wf _ _ _ _ _ _ (strip_idem uname) Hwf Hins) as Hwf1.
  apply insert_user_appends in Hins. destruct Hins as [Hdb _].
  exists (mk_user (users_seq (disk w) + 1) (strip uname)
            (hash_password salt password) (lower (strip mail))
            (Some "light") cts).
  split; [rewrite Hdb; reflexivity|].
  split; [reflexivity|]. split; [reflexivity|].
  split; [exact Ht1|]. split; [exact Hf1|]. split; [exact Hwf1|].
  intros w2 Ht2 Hf2 Hwf2 Hin.
  assert (select_user_by_username (strip uname) (disk w2)
          = Some (mk_user (users_seq (disk w) + 1) (strip uname)
                    (hash_password salt password) (lower (strip mail))
                    (Some "light") cts)) as Hsel.
  { unfold select_user_by_username.
    exact (@find_unique _ _ (proj1 Hwf2) Hin). }
  split.
  - rewrite authenticate_user_reads by assumption.
    rewrite Hsel. cbn [password_hash]. unfold verify_password, hash_password.
    rewrite ph_verify_own. reflexivity.
  - intros wrong Hne.
    rewrite authenticate_user_reads by assumption.
    rewrite Hsel. cbn [password_hash]. unfold verify_password, hash_password.
    rewrite ph_verify_other by exact Hne. reflexivity.
Qed.

(** ** The patient history page *)



Lemma insert_desc_In : forall r x l, In x (insert_desc r l) <-> x = r \/ In x l.
Proof.
  induction l as [|y l IH]; simpl.
  - intuition.
  - destruct (sql_le (pt_timestamp y) (pt_timestamp r)); simpl; intuition.
Qed.

(** The ordering holds the same rows. *)
Lemma order_by_timestamp_desc_In : forall x l,
    In x (order_by_timestamp_desc l) <-> In x l.
Proof.
  induction l as [|y l IH]; simpl; [tauto|].
  rewrite insert_desc_In, IH. intuition.
Qed.

Lemma string_compare_trans : forall a b c,
    String.compare a b <> Gt -> String.compare b c <> Gt ->
    String.compare a c <> Gt.
Proof.
  induction a as [|ca a IH]; intros [|cb b] [|cc c]; simpl; try congruence.
  destruct (Ascii.compare ca cb) eqn:A1; try congruence;
    destruct (Ascii.compare cb cc) eqn:A2; try congruence.
  - apply Ascii.compare_eq_iff in A1, A2. subst.
    unfold Ascii.compare. rewrite N.compare_refl. apply IH.
  - apply Ascii.compare_eq_iff in A1. subst. rewrite A2. congruence.
  - apply Ascii.compare_eq_iff in A2. subst. rewrite A1. congruence.
  - assert (Ascii.compare ca cc = Lt) as ->; [|congruence].
    unfold Ascii.compare in *. rewrite N.compare_lt_iff in *. lia.
Qed.

Lemma string_leb_trans : forall a b c,
    String.leb a b = true -> String.leb b c = true -> String.leb a c = true.
Proof.
  intros a b c. unfold String.leb.
  pose proof (string_compare_trans a b c) as H.
  destruct (String.compare a b), (String.compare b c), (String.compare a c);
    try discriminate; auto; intros _ _; exfalso; apply H; congruence.
Qed.

(** Rows whose timestamps are text come out newest first. *)
Lemma insert_desc_sorted : forall r l,
    (exists s, pt_timestamp r = SText s) ->
    Forall (fun x => exists s, pt_timestamp x = SText s) l ->
    StronglySorted (fun x y => sql_le (pt_timestamp y) (pt_timestamp x) = true) l ->
    StronglySorted (fun x y => sql_le (pt_timestamp y) (pt_timestamp x) = true)
      (insert_desc r l).
Proof.
  intros r l [s Hs] Hall Hsorted.
  induction l as [|x l IH]; simpl.
  - constructor; constructor.
  - inversion Hall as [|? ? [sx Hx] Hall']; subst.
    inversion Hsorted as [|? ? Hs' Hfa]; subst.
    destruct (sql_le (pt_timestamp x) (pt_timestamp r)) eqn:E.
    + constructor; [exact Hsorted|].
      constructor; [exact E|].
      rewrite Forall_forall in *. intros y Hy.
      specialize (Hfa y Hy). specialize (Hall' y Hy). destruct Hall' as [sy Hy'].
      rewrite Hs, Hx, Hy' in *. cbn [sql_le] in *.
      eapply string_leb_trans; eassumption.
    + constructor.
      * apply IH; assumption.
      * rewrite Forall_forall. intros y Hy. apply insert_desc_In in Hy.
        destruct Hy as [->|Hy].
        -- rewrite Hs, Hx in *. cbn [sql_le] in *.
           destruct (String.leb_total s sx) as [H|H]; congruence.
        -- rewrite Forall_forall in Hfa. auto.
Qed.

Lemma order_by_timestamp_desc_sorted : forall l,
    Forall (fun x => exists s, pt_timestamp x = SText s) l ->
    StronglySorted (fun x y => sql_le (pt_timestamp y) (pt_timestamp x) = true)
      (order_by_timestamp_desc l).
Proof.
  induction l as [|x l IH]; intro Hall; simpl.
  - constructor.
  - inversion Hall as [|? ? Hx Hall']; subst.
    apply insert_desc_sorted.
    + exact Hx.
    + apply Forall_forall. intros y Hy.
      apply (proj1 (order_by_timestamp_desc_In y l)) in Hy.
      exact (proj1 (Forall_forall _ l) Hall' y Hy).
    + apply IH. exact Hall'.
Qed.



(** ** The quick-login form *)

(** C2. When [authenticate_user] returns the user, 2FA is enabled and
    the code typed into the form is refused by the TOTP check, the form
    shows "Invalid 2FA code." and goes on to log the user in: the session
    has [logged_in = True], the user's id and the username, and the
    script ends with a rerun or a switch to the page to go to. *)
Theorem quick_login_proceeds_after_invalid_2fa :
  forall (a : app) (uname password code secret : string) (now : datetime)
         (user : user_row) (w' : world),
    authenticate_user uname password (conn a) = (Ok (Some user), w') ->
    tfa_enabled (session a) = true ->
    code <> EmptyString ->
    tfa_secret (session a) = Some secret ->
    totp_verify secret code now = false ->
    exists r a',
      quick_login uname password code now a = (r, a') /\
      In (UiError "Invalid 2FA code.") (screen a') /\
      logged_in (session a') = true /\
      s_user_id (session a') = Some (u_id user) /\
      s_username (session a') = uname /\
      conn a' = w' /\
      (r = Raise RerunException \/
       r = Raise (SwitchPageException (redirect_to (session a)))).
Proof.
  intros [s w sc] uname password code secret now user w' Hauth Hen Hcode Hsec Hver.
  cbn [conn session] in *.
  unfold quick_login.
  cbv [bind get_session modify_session try_except on_conn session conn screen
         count_click tfa_enabled tfa_secret].
  rewrite Hauth.
  destruct s as [li un ui rt la th pt nt ts te bc].
  cbn [tfa_enabled tfa_secret] in Hen, Hsec. subst te ts.
  cbv [truthy_str]. rewrite (str_empty_false Hcode).
  cbv [lift totp_check]. rewrite Hver.
  cbv [negb st_error show log_in apply_custom_css ret raise
         session conn screen redirect_to s_theme set_page_transition].
  destruct (String.eqb rt "app.py"); cbv beta iota; cbn [is_Exception];
    do 2 eexists; (split; [reflexivity|]);
    cbn [screen session logged_in s_user_id s_username conn redirect_to];
    (split; [apply in_or_app; left; apply in_or_app; right; left; reflexivity|]);
    auto 10.
Qed.

(* ================================================================== *)
(** * Further properties of [database.py] *)

Set Default Proof Using "Type".

(** Drop what the statement at hand does not speak of. *)
Ltac forget_env :=
  try clear ph_verify_own; try clear ph_verify_other;
  try clear totp_verify; try clear ph_verify; try clear ph_hash.

Lemma find_none : forall (A : Type) (p : A -> bool) (l : list A),
    (forall x, In x l -> p x = false) -> find p l = None.
Proof.
  forget_env.
  induction l as [|a l IH]; intro H; simpl; auto.
  rewrite (H a (or_introl eq_refl)). apply IH. intros x Hx. apply H. right. exact Hx.
Qed.

Lemma find_filter : forall (A : Type) (p q : A -> bool) (l : list A),
    (forall x, In x l -> p x = true -> q x = true) ->
    find p (filter q l) = find p l.
Proof.
  forget_env.
  induction l as [|a l IH]; intro H; simpl; auto.
  destruct (q a) eqn:Eq; simpl.
  - destruct (p a); auto. apply IH. intros x Hx. apply H. right. exact Hx.
  - destruct (p a) eqn:Ep.
    + rewrite (H a (or_introl eq_refl) Ep) in Eq. discriminate.
    + apply IH. intros x Hx. apply H. right. exact Hx.
Qed.

Lemma filter_filter_same : forall (A : Type) (p q : A -> bool) (l : list A),
    (forall x, In x l -> p x = true -> q x = true) ->
    filter p (filter q l) = filter p l.
Proof.
  forget_env.
  induction l as [|a l IH]; intro H; simpl; auto.
  destruct (q a) eqn:Eq; simpl.
  - destruct (p a); rewrite IH; auto; intros x Hx; apply H; right; exact Hx.
  - destruct (p a) eqn:Ep.
    + rewrite (H a (or_introl eq_refl) Ep) in Eq. discriminate.
    + apply IH. intros x Hx. apply H. right. exact Hx.
Qed.

Lemma string_ltb_negb_leb : forall a b,
    String.ltb a b = negb (String.leb b a).
Proof.
  forget_env.
  intros a b. unfold String.ltb, String.leb.
  rewrite (String.compare_antisym b a).
  destruct (String.compare a b); reflexivity.
Qed.

(** ** Reset tokens: re-issue and cleanup *)

(** X1. A new token for a user puts the old one out of use: once
    [create_reset_token] has run again for the same user, a lookup of
    the earlier token finds nothing at any time, provided the two tokens
    differ and no other user's row carries the earlier text. *)
Theorem reissue_invalidates_old_token :
  forall (w w1 w2 : world) (uid : Z) (rnd1 rnd2 : list byte)
         (now1 now2 t : datetime) (cts1 cts2 tok1 tok2 : string),
    txn w = disk w -> faults w = [] ->
    create_reset_token uid rnd1 now1 cts1 w = (Ok tok1, w1) ->
    create_reset_token uid rnd2 now2 cts2 w1 = (Ok tok2, w2) ->
    tok1 <> tok2 ->
    (forall r, In r (password_resets (disk w)) -> r_user_id r <> uid ->
               token r <> tok1) ->
    get_reset_token tok1 t w2 = (Ok None, w2) /\
    List.length (resets_of uid (disk w2)) = 1%nat.
Proof.
  forget_env.
  intros w w1 w2 uid rnd1 rnd2 now1 now2 t cts1 cts2 tok1 tok2
         Ht Hf H1 H2 Hne Hother.
  rewrite create_reset_token_runs in H1 by assumption.
  injection H1 as Htok1 Hw1.
  assert (txn w1 = disk w1 /\ faults w1 = []) as [Ht1 Hf1]
    by (subst w1; split; [reflexivity | exact Hf]).
  rewrite create_reset_token_runs in H2 by assumption.
  injection H2 as Htok2 Hw2.
  assert (txn w2 = disk w2 /\ faults w2 = []) as [Ht2 Hf2]
    by (subst w2; split; [reflexivity | exact Hf1]).
  split.
  - rewrite get_reset_token_reads by assumption.
    unfold select_reset. rewrite find_none; [reflexivity|].
    intros r Hin. subst w2. cbn [disk settled password_resets set_password_resets] in Hin.
    apply in_app_or in Hin. destruct Hin as [Hin|[<-|[]]].
    + apply filter_In in Hin. destruct Hin as [Hin Huid].
      subst w1. cbn [disk settled password_resets set_password_resets] in Hin.
      apply in_app_or in Hin. destruct Hin as [Hin|[<-|[]]].
      * apply filter_In in Hin. destruct Hin as [Hin _].
        apply negb_true_iff, Z.eqb_neq in Huid.
        apply andb_false_iff. left. apply String.eqb_neq. auto.
      * cbn [r_user_id] in Huid. rewrite Z.eqb_refl in Huid. discriminate.
    + cbn [token]. apply andb_false_iff. left. apply String.eqb_neq.
      rewrite Htok2. auto.
  - subst w2. cbn [disk settled]. rewrite resets_of_replace; reflexivity.
Qed.

(** X2. [cleanup_expired_tokens] deletes exactly the rows whose expiry
    is not after the clock: the rows left are those that were there
    with [expires_at] above the text of the clock, in their order, and
    no other table changes.  A lookup made at that time or later (in
    the order of the clock texts) gives the same answer as without the
    cleanup. *)
Theorem cleanup_removes_exactly_expired :
  forall (w : world) (now : datetime),
    txn w = disk w -> faults w = [] ->
    exists w',
      cleanup_expired_tokens now w = (Ok tt, w') /\
      password_resets (disk w')
        = filter (fun r => String.ltb (strftime now) (expires_at r))
            (password_resets (disk w)) /\
      users (disk w') = users (disk w) /\
      predictions (disk w') = predictions (disk w) /\
      patients (disk w') = patients (disk w) /\
      forall tok t,
        String.leb (strftime now) (strftime t) = true ->
        get_reset_token tok t w' = (fst (get_reset_token tok t w), w').
Proof.
  forget_env.
  intros [d tx fs b l] now Ht Hf. simpl in Ht, Hf. subst.
  eexists. split; [reflexivity|].
  cbn [disk password_resets users predictions patients set_password_resets].
  split.
  { apply filter_ext. intro r. symmetry. apply string_ltb_negb_leb. }
  split; [reflexivity|]. split; [reflexivity|]. split; [reflexivity|].
  intros tok t Hle.
  rewrite !get_reset_token_reads by reflexivity.
  cbn [fst disk]. f_equal. f_equal.
  unfold select_reset. cbn [password_resets set_password_resets].
  apply find_filter. intros r _ Hp.
  apply andb_true_iff in Hp. destruct Hp as [_ Hlt].
  rewrite string_ltb_negb_leb in Hlt. apply negb_true_iff in Hlt.
  apply negb_true_iff.
  destruct (String.leb (expires_at r) (strftime now)) eqn:E; [|reflexivity].
  rewrite (string_leb_trans _ _ _ E Hle) in Hlt. discriminate.
Qed.

(** ** delete_user and the other accounts *)

Lemma delete_user_runs : forall w uid now,
    txn w = disk w -> faults w = [] ->
    exists w',
      delete_user uid now w = (Ok tt, w') /\ disk w' = cascade uid (disk w) /\
      txn w' = disk w' /\ faults w' = [].
Proof.
  forget_env.
  intros [d t fs b l] uid now Ht Hf. simpl in Ht, Hf. subst.
  unfold delete_user.
  cbv [delete_resets_where_user delete_predictions_where_user
         delete_patients_where_user delete_users_where_id].
  run_py.
  destruct l as [t0|]; [destruct (timedelta_days 1 <=? now - t0)|];
    cbn; eexists; repeat split.
Qed.

(** X3. [delete_user] touches no other account: every row of every
    other user is still there, in its order, in all four tables.  And
    the deleted account is closed: with unique usernames,
    [authenticate_user] returns [None] for its username whatever the
    password. *)
Theorem delete_user_spares_others :
  forall (w : world) (uid : Z) (now : datetime),
    txn w = disk w -> faults w = [] ->
    exists w',
      delete_user uid now w = (Ok tt, w') /\
      (forall other, other <> uid ->
         resets_of other (disk w') = resets_of other (disk w) /\
         predictions_of other (disk w') = predictions_of other (disk w) /\
         patients_of other (disk w') = patients_of other (disk w) /\
         users_with_id other (disk w') = users_with_id other (disk w)) /\
      (forall row password,
         users_wf (disk w) -> In row (users (disk w)) -> u_id row = uid ->
         authenticate_user (username row) password w' = (Ok None, w')).
Proof.
  forget_env.
  intros w uid now Ht Hf.
  destruct (@delete_user_runs w uid now Ht Hf) as (w' & Hrun & Hdisk & Ht' & Hf').
  exists w'. split; [exact Hrun|]. rewrite Hdisk. split.
  - intros other Hne.
    unfold resets_of, predictions_of, patients_of, users_with_id, cascade.
    cbn [password_resets predictions patients users].
    repeat split; apply filter_filter_same; intros x _ Hx;
      apply Z.eqb_eq in Hx; apply negb_true_iff, Z.eqb_neq; congruence.
  - intros row password [Hnd Hst] Hin Hid.
    rewrite authenticate_user_reads by assumption.
    rewrite Hdisk. unfold select_user_by_username. cbn [users cascade].
    rewrite (Hst row Hin).
    rewrite find_none; [reflexivity|].
    intros r Hr. apply filter_In in Hr. destruct Hr as [Hr Hid'].
    apply String.eqb_neq. intro Heq.
    assert (r = row) as ->.
    { clear - Hnd Hr Hin Heq. revert Hnd Hr Hin.
      induction (users (disk w)) as [|a us IH]; simpl; [tauto|].
      intros Hnd Hr Hin. inversion Hnd as [|? ? Hnot Hnd']; subst.
      destruct Hr as [->|Hr], Hin as [->|Hin]; auto.
      - exfalso. apply Hnot. rewrite Heq. apply in_map. exact Hin.
      - exfalso. apply Hnot. rewrite <- Heq. apply in_map. exact Hr. }
    rewrite Hid, Z.eqb_refl in Hid'. discriminate.
Qed.

(** ** update_user_theme *)

Lemma find_map_same_name : forall (f : user_row -> user_row) uname (l : list user_row),
    (forall r, username (f r) = username r) ->
    find (fun r => String.eqb (username r) uname) (map f l)
    = option_map f (find (fun r => String.eqb (username r) uname) l).
Proof.
  forget_env.
  intros f uname l Hf. induction l as [|a l IH]; simpl; auto.
  rewrite Hf. destruct (String.eqb (username a) uname); auto.
Qed.

(** X4. [update_user_theme] accepts only ['light'] and ['dark']: any
    other theme raises [ValueError] and changes nothing.  An accepted
    theme is written to the rows with that id and to no other row, no
    other column changes, and the next [authenticate_user] of that user
    returns the row with the new theme. *)
Theorem update_user_theme_round_trip :
  forall (w : world) (uid : Z) (th : string),
    txn w = disk w -> faults w = [] ->
    (th <> "light" -> th <> "dark" ->
     exists msg, update_user_theme uid th w = (Raise (ValueError msg), w)) /\
    (th = "light" \/ th = "dark" ->
     exists w',
       update_user_theme uid th w = (Ok tt, w') /\
       users (disk w')
         = map (fun r => if u_id r =? uid then with_theme th r else r)
             (users (disk w)) /\
       password_resets (disk w') = password_resets (disk w) /\
       predictions (disk w') = predictions (disk w) /\
       patients (disk w') = patients (disk w) /\
       forall row salt password,
         users_wf (disk w) -> In row (users (disk w)) -> u_id row = uid ->
         password_hash row = hash_password salt password ->
         authenticate_user (username row) password w'
           = (Ok (Some (with_theme th row)), w')).
Proof using ph_verify_own.
  intros [d t fs b l] uid th Ht Hf. simpl in Ht, Hf. subst. split.
  - intros H1 H2. unfold update_user_theme.
    apply String.eqb_neq in H1, H2. rewrite H1, H2. cbn.
    eexists. reflexivity.
  - intros Hth.
    assert (negb (String.eqb th "light" || String.eqb th "dark") = false) as E.
    { destruct Hth as [->| ->]; reflexivity. }
    unfold update_user_theme. rewrite E.
    exists (mk_world
              (set_users d
                 (map (fun r => if u_id r =? uid then with_theme th r else r)
                    (users d)) (users_seq d))
              (set_users d
                 (map (fun r => if u_id r =? uid then with_theme th r else r)
                    (users d)) (users_seq d)) [] b l).
    split; [reflexivity|].
    cbn [disk users password_resets predictions patients set_users].
    split; [reflexivity|]. split; [reflexivity|]. split; [reflexivity|].
    split; [reflexivity|].
    intros row salt password [Hnd Hst] Hin Hid Hhash.
    rewrite authenticate_user_reads by reflexivity.
    cbn [disk]. unfold select_user_by_username. cbn [users set_users].
    rewrite (Hst row Hin).
    rewrite find_map_same_name
      by (intro r; destruct (u_id r =? uid); reflexivity).
    rewrite (@find_unique _ row Hnd Hin). cbn [option_map].
    rewrite Hid, Z.eqb_refl. cbn [password_hash with_theme].
    rewrite Hhash. unfold verify_password, hash_password.
    rewrite ph_verify_own. reflexivity.
Qed.

(** ** Registration seen by the other calls *)

Lemma lower_char_idem : forall c, lower_char (lower_char c) = lower_char c.
Proof.
  forget_env.
  intro c. unfold lower_char at 2 3. destruct (is_upper c) eqn:E; [|unfold lower_char; rewrite E; reflexivity].
  unfold lower_char.
  assert (is_upper (ascii_of_nat (nat_of_ascii c + 32)) = false) as ->; [|reflexivity].
  unfold is_upper, in_range in *.
  apply andb_true_iff in E. destruct E as [E1 E2].
  apply Nat.leb_le in E1, E2.
  rewrite nat_ascii_embedding by lia.
  apply andb_false_iff. right. apply Nat.leb_gt. lia.
Qed.

Lemma lower_idem : forall s, lower (lower s) = lower s.
Proof.
  forget_env.
  induction s as [|c s IH]; simpl; auto.
  rewrite lower_char_idem, IH. reflexivity.
Qed.

Lemma find_app_fresh : forall (A : Type) (p : A -> bool) (l : list A) (x : A),
    (forall y, In y l -> p y = false) -> p x = true ->
    find p (l ++ [x]) = Some x.
Proof.
  forget_env.
  induction l as [|a l IH]; intros x Hold Hx; simpl.
  - rewrite Hx. reflexivity.
  - rewrite (Hold a (or_introl eq_refl)). apply IH; auto.
    intros y Hy. apply Hold. right. exact Hy.
Qed.

(** X5. An account can be found by its email however the address is
    typed: after [register_user] has returned [True],
    [get_user_by_email] returns the new row for every spelling that is
    the registered address up to letter case and blanks around it. *)
Theorem get_user_by_email_finds_registered :
  forall (w w1 : world) (uname password mail typed : string)
         (salt : list byte) (cts : string),
    txn w = disk w -> faults w = [] ->
    register_user uname password mail salt cts w = (Ok true, w1) ->
    lower (strip typed) = lower (strip mail) ->
    exists row,
      get_user_by_email typed w1 = (Ok (Some row), w1) /\
      In row (users (disk w1)) /\
      username row = strip uname /\
      email row = lower (strip mail) /\
      u_id row = users_seq (disk w) + 1.
Proof.
  forget_env.
  intros w w1 uname password mail typed salt cts Ht Hf Hreg Htyped.
  destruct (@register_user_true w uname password mail salt cts w1 Ht Hf Hreg)
    as (Hins & Ht1 & Hf1).
  pose proof Hins as Hins'.
  apply insert_user_appends in Hins. destruct Hins as [Hdb _].
  exists (mk_user (users_seq (disk w) + 1) (strip uname)
            (hash_password salt password) (lower (strip mail))
            (Some "light") cts).
  assert (get_user_by_email typed w1
          = (Ok (select_user_by_email (lower (strip typed)) (disk w1)), w1)) as ->.
  { destruct w1 as [d1 t1 fs1 b1 l1]. simpl in Ht1, Hf1. subst. reflexivity. }
  rewrite Htyped, Hdb. unfold select_user_by_email. cbn [users set_users].
  split.
  - f_equal. f_equal.
    assert (forall r, In r (users (disk w)) ->
                      String.eqb (email r) (lower (strip mail)) = false) as Hold.
    { intros r Hin. unfold insert_user in Hins'.
      destruct (existsb _ (users (disk w))) eqn:E; [discriminate|].
      destruct (String.eqb (email r) (lower (strip mail))) eqn:Em; [|reflexivity].
      rewrite (@existsb_In _ _ _ r Hin) in E; [discriminate|].
      rewrite Em. apply orb_true_r. }
    apply find_app_fresh; [exact Hold|]. cbn [email]. apply String.eqb_refl.
  - split; [apply in_or_app; right; left; reflexivity|].
    repeat split.
Qed.

(** X6. The same registration made twice: the second call returns
    [False], changes nothing, and the username has exactly one row.
    (Nothing is asked of the arguments: a first call that returned
    [True] has passed the checks.) *)
Theorem register_user_twice :
  forall (w w1 : world) (uname password mail : string)
         (salt salt' : list byte) (cts cts' : string),
    txn w = disk w -> faults w = [] ->
    register_user uname password mail salt cts w = (Ok true, w1) ->
    register_user uname password mail salt' cts' w1 = (Ok false, w1) /\
    List.length (users_named (strip uname) (disk w1)) = 1%nat /\
    List.length (users (disk w1)) = S (List.length (users (disk w))).
Proof.
  forget_env.
  intros w w1 uname password mail salt salt' cts cts' Ht Hf Hreg.
  destruct (@register_user_true w uname password mail salt cts w1 Ht Hf Hreg)
    as (Hins & Ht1 & Hf1).
  assert (check_registration (strip uname) password (lower (strip mail)) = Ok tt)
    as Hc.
  { destruct (check_registration (strip uname) password (lower (strip mail)))
      as [[]|e] eqn:Hc; [reflexivity|].
    destruct (@register_user_invalid w uname password mail salt cts e Hc)
      as (msg & _ & H'). congruence. }
  apply insert_user_appends in Hins. destruct Hins as [Hdb Hfresh].
  split; [|split].
  - rewrite register_user_runs by assumption.
    rewrite (@insert_user_taken
               (mk_user (users_seq (disk w) + 1) (strip uname)
                  (hash_password salt password) (lower (strip mail))
                  (Some "light") cts)
               (disk w1) (strip uname) (hash_password salt' password)
               (lower (strip mail)) cts'); [reflexivity| |left; reflexivity].
    rewrite Hdb. cbn [users set_users]. apply in_or_app. right. left. reflexivity.
  - unfold users_named. rewrite Hdb. cbn [users set_users].
    rewrite filter_app, users_named_fresh by exact Hfresh.
    cbn [filter username]. rewrite String.eqb_refl. reflexivity.
  - rewrite Hdb. cbn [users set_users]. rewrite length_app. simpl. lia.
Qed.

(** ** What the calls keep true of [users] *)

Lemma insert_user_fresh_email : forall uname hash mail cts db db',
    insert_user uname hash mail cts db = Ok db' ->
    ~ In mail (map email (users db)).
Proof.
  forget_env.
  intros uname hash mail cts db db'. unfold insert_user.
  destruct (existsb _ (users db)) eqn:E; [discriminate|]. intros _ Hin.
  apply in_map_iff in Hin. destruct Hin as (r & Hr & Hin).
  rewrite (@existsb_In _ _ _ r Hin) in E; [discriminate|].
  rewrite Hr, String.eqb_refl. apply orb_true_r.
Qed.

Lemma register_user_change : forall w uname password mail salt cts,
    txn w = disk w ->
    users_change (disk w) (disk (snd (register_user uname password mail salt cts w))).
Proof.
  forget_env.
  intros w uname password mail salt cts Ht.
  destruct (register_user_outcome w uname password mail salt cts Ht)
    as (_ & [H | [Hok H]]).
  - rewrite H. apply users_same; reflexivity.
  - assert (check_registration (strip uname) password (lower (strip mail)) = Ok tt)
      as Hc.
    { destruct (check_registration (strip uname) password (lower (strip mail)))
        as [[]|e] eqn:Hc; [reflexivity|].
      destruct (@register_user_invalid w uname password mail salt cts e Hc)
        as (msg & _ & H'). rewrite H' in Hok. discriminate. }
    pose proof (insert_user_fresh_email _ _ _ _ _ H) as Hmail.
    apply insert_user_appends in H. destruct H as [H Hname].
    rewrite H.
    apply users_inserted with (uname := uname) (password := password)
                              (mail := mail) (salt := salt) (cts := cts);
      try assumption; reflexivity.
Qed.

Lemma save_prediction_seq : forall w uid ty p out ts,
    txn w = disk w ->
    users_seq (disk (snd (save_prediction uid ty p out ts w))) = users_seq (disk w).
Proof.
  forget_env.
  intros [d t fs b l] uid ty p out ts Ht. simpl in Ht. subst t.
  unfold save_prediction.
  destruct (check_prediction uid ty p out ts) as [[[[[u y] q] o] s]|e];
    [|cbn; auto].
  run_py.
  destruct (bind_param (PFloat q)) as [v|e]; [|cbn; auto].
  unfold insert_prediction.
  destruct (int64_ok u);
    [destruct (check_passes (CheckRange 0 100) (apply_affinity AffReal v))|];
    all_faults; auto.
Qed.

Lemma save_patient_data_seq : forall w uid kw cts,
    txn w = disk w ->
    users_seq (disk (snd (save_patient_data uid kw cts w))) = users_seq (disk w).
Proof.
  forget_env.
  intros [d t fs b l] uid kw cts Ht. simpl in Ht. subst t.
  unfold save_patient_data.
  destruct (existsb (fun kv => is_None (snd kv)) kw); [cbn; auto|].
  destruct (existsb _ kw); [cbn; auto|].
  run_py.
  destruct (bind_params kw) as [vs|e]; [|cbn; auto].
  unfold insert_patient.
  destruct (forallb (fun c => known_patient_column (fst c)) vs);
    all_faults;
    repeat match goal with
           | |- context [store_patient_columns ?t ?v ?r] =>
               destruct (store_patient_columns t v r) as [row|e]
           end;
    all_faults; auto.
Qed.

Lemma run_call_users : forall c w,
    txn w = disk w -> users_change (disk w) (disk (run_call c w)).
Proof.
  forget_env.
  intros c w Ht. destruct c; cbn [run_call].
  - destruct (init_db_outcome w now Ht) as [_ H]. rewrite H.
    apply users_same; reflexivity.
  - apply register_user_change. exact Ht.
  - destruct (create_reset_token_outcome w uid urandom now cts Ht)
      as [_ [H | (row & n & _ & H)]]; rewrite H; apply users_same; reflexivity.
  - destruct (cleanup_expired_tokens_outcome w now Ht) as [_ [H | H]];
      rewrite H; apply users_same; reflexivity.
  - destruct (update_user_theme_outcome w uid th Ht) as [_ [H | H]].
    + rewrite H. apply users_same; reflexivity.
    + injection H as H. rewrite <- H. eapply users_themed; reflexivity.
  - destruct (delete_user_outcome w uid now Ht) as (_ & H & _).
    destruct H as [[_ H] | [[_ H] | [_ H]]]; rewrite H;
      try (apply users_same; reflexivity);
      eapply users_deleted; reflexivity.
  - destruct (save_prediction_outcome w uid ty p out ts Ht) as (_ & H & _).
    apply users_same; [exact H | apply save_prediction_seq; exact Ht].
  - destruct (save_patient_data_outcome w uid kwargs cts Ht) as (_ & H & _).
    apply users_same; [exact H | apply save_patient_data_seq; exact Ht].
Qed.

Lemma is_space_lower_char : forall c, is_space (lower_char c) = is_space c.
Proof.
  forget_env.
  intro c. unfold lower_char. destruct (is_upper c) eqn:E; [|reflexivity].
  unfold is_upper, is_space, in_range in *.
  apply andb_true_iff in E. destruct E as [E1 E2]. apply Nat.leb_le in E1, E2.
  rewrite nat_ascii_embedding by lia.
  repeat match goal with
         | |- context [Nat.leb ?a ?b] =>
             let H := fresh in
             destruct (Nat.leb a b) eqn:H;
             [apply Nat.leb_le in H | apply Nat.leb_gt in H]
         end; simpl; try reflexivity; lia.
Qed.

Lemma lstrip_lower : forall s, lstrip (lower s) = lower (lstrip s).
Proof.
  forget_env.
  induction s as [|c s IH]; simpl; auto.
  rewrite is_space_lower_char. destruct (is_space c); auto.
Qed.

Lemma rstrip_lower : forall s, rstrip (lower s) = lower (rstrip s).
Proof.
  forget_env.
  induction s as [|c s IH]; simpl; auto.
  rewrite IH, is_space_lower_char.
  destruct (rstrip s); simpl; auto. destruct (is_space c); auto.
Qed.

Lemma strip_lower : forall s, strip (lower s) = lower (strip s).
Proof. intro s. unfold strip. rewrite lstrip_lower, rstrip_lower. reflexivity. Qed.

(** Normalising an address twice is normalising it once. *)
Lemma normalise_email_idem : forall s,
    lower (strip (lower (strip s))) = lower (strip s).
Proof. intro s. rewrite strip_lower, strip_idem, lower_idem. reflexivity. Qed.

Lemma check_registration_ok : forall uname password mail,
    check_registration uname password mail = Ok tt ->
    (3 <= String.length uname <= 50)%nat /\
    (8 <= String.length password)%nat /\
    re_match_anchored username_re uname = true /\
    re_match_anchored email_re mail = true.
Proof.
  forget_env.
  intros uname password mail. unfold check_registration.
  destruct (str_empty uname || str_empty password || str_empty mail); [discriminate|].
  destruct (String.length password <? 8)%nat eqn:E1; [discriminate|].
  destruct (String.length uname <? 3)%nat eqn:E2; [discriminate|].
  destruct (50 <? String.length uname)%nat eqn:E3; [discriminate|]. cbn [orb].
  destruct (re_match_anchored username_re uname); [|discriminate].
  destruct (re_match_anchored email_re mail); [|discriminate]. cbn [negb].
  intros _. apply Nat.ltb_ge in E1, E2, E3. repeat split; auto.
Qed.

Lemma NoDup_map_filter : forall (A B : Type) (f : A -> B) (p : A -> bool) (l : list A),
    NoDup (map f l) -> NoDup (map f (filter p l)).
Proof.
  forget_env.
  induction l as [|a l IH]; simpl; auto.
  intro Hnd. inversion Hnd as [|? ? Hnot Hnd']; subst.
  destruct (p a); simpl; auto. constructor; auto.
  intro Hin. apply Hnot. apply in_map_iff in Hin.
  destruct Hin as (r & Hr & Hin). apply filter_In in Hin.
  apply in_map_iff. exists r. tauto.
Qed.

Lemma NoDup_map_snoc : forall (A B : Type) (f : A -> B) (l : list A) (x : A),
    NoDup (map f l) -> ~ In (f x) (map f l) -> NoDup (map f (l ++ [x])).
Proof.
  forget_env.
  intros A B f l x Hnd Hnot. rewrite map_app. apply NoDup_app; auto.
  - simpl. constructor; [intros []|constructor].
  - intros a Ha [<-|[]]. contradiction.
Qed.

Lemma users_change_emails : forall db db',
    emails_wf db -> users_change db db' -> emails_wf db'.
Proof.
  forget_env.
  intros db db' [Hnd Hnorm] [Hu _ | uname password mail salt cts _ Hu _ _ Hfresh
                            | th uid Hu _ | uid Hu _];
    unfold emails_wf; rewrite Hu.
  - auto.
  - split.
    + apply NoDup_map_snoc; assumption.
    + intros r Hin. apply in_app_or in Hin. destruct Hin as [Hin | [<- | []]]; auto.
      cbn [email]. apply normalise_email_idem.
  - split.
    + rewrite map_map. erewrite map_ext; [exact Hnd|].
      intro r. cbn beta. destruct (u_id r =? uid); reflexivity.
    + intros r Hin. apply in_map_iff in Hin. destruct Hin as (r0 & <- & Hin).
      destruct (u_id r0 =? uid); cbn [email with_theme]; auto.
  - split.
    + apply NoDup_map_filter. exact Hnd.
    + intros r Hin. apply filter_In in Hin. apply Hnorm. tauto.
Qed.

Lemma users_change_ids : forall db db',
    user_ids_wf db -> users_change db db' ->
    user_ids_wf db' /\ users_seq db <= users_seq db' /\
    (forall r, In r (users db') -> ~ In (u_id r) (map u_id (users db)) ->
               users_seq db < u_id r).
Proof.
  forget_env.
  intros db db' (Hseq & Hnd & Hids)
         [Hu Hs | uname password mail salt cts _ Hu Hs _ _
          | th uid Hu Hs | uid Hu Hs];
    unfold user_ids_wf; rewrite Hu, Hs.
  - repeat split; auto; try lia; try (apply Hids; assumption).
    intros r Hin Hnot. exfalso. apply Hnot. apply in_map. exact Hin.
  - repeat split; try lia.
    + apply NoDup_map_snoc; [exact Hnd|]. cbn [u_id]. intro Hin.
      apply in_map_iff in Hin. destruct Hin as (r & Hr & Hin).
      specialize (Hids r Hin). lia.
    + apply in_app_or in H. destruct H as [H | [<- | []]]; cbn [u_id]; try lia.
      specialize (Hids r H). lia.
    + apply in_app_or in H. destruct H as [H | [<- | []]]; cbn [u_id]; try lia.
      specialize (Hids r H). lia.
    + intros r Hin Hnot. apply in_app_or in Hin.
      destruct Hin as [Hin | [<- | []]]; cbn [u_id]; try lia.
      exfalso. apply Hnot. apply in_map. exact Hin.
  - assert (map u_id (map (fun r => if u_id r =? uid then with_theme th r else r)
                        (users db)) = map u_id (users db)) as Hmap.
    { rewrite map_map. apply map_ext. intro r.
      destruct (u_id r =? uid); reflexivity. }
    repeat split; try lia.
    + rewrite Hmap. exact Hnd.
    + apply in_map_iff in H. destruct H as (r0 & <- & Hin).
      specialize (Hids r0 Hin). destruct (u_id r0 =? uid); cbn [u_id with_theme]; lia.
    + apply in_map_iff in H. destruct H as (r0 & <- & Hin).
      specialize (Hids r0 Hin). destruct (u_id r0 =? uid); cbn [u_id with_theme]; lia.
    + intros r Hin Hnot. exfalso. apply Hnot. rewrite <- Hmap.
      apply in_map. exact Hin.
  - repeat split; try lia.
    + apply NoDup_map_filter. exact Hnd.
    + apply filter_In in H. destruct H as [H _]. specialize (Hids r H). lia.
    + apply filter_In in H. destruct H as [H _]. specialize (Hids r H). lia.
    + intros r Hin Hnot. exfalso. apply Hnot.
      apply filter_In in Hin. apply in_map. tauto.
Qed.

Lemma users_change_checked : forall db db',
    (forall r, In r (users db) -> user_row_checked r) ->
    users_change db db' ->
    forall r, In r (users db') -> user_row_checked r.
Proof.
  forget_env.
  intros db db' Hall [Hu _ | uname password mail salt cts Hc Hu _ _ _
                      | th uid Hu _ | uid Hu _] r Hin; rewrite Hu in Hin.
  - auto.
  - apply in_app_or in Hin. destruct Hin as [Hin | [<- | []]]; auto.
    apply check_registration_ok in Hc. unfold user_row_checked.
    cbn [username email]. tauto.
  - apply in_map_iff in Hin. destruct Hin as (r0 & <- & Hin).
    specialize (Hall r0 Hin). destruct (u_id r0 =? uid); auto.
  - apply filter_In in Hin. apply Hall. tauto.
Qed.

Lemma reachable_users : forall w,
    reachable w ->
    emails_wf (disk w) /\ user_ids_wf (disk w) /\
    (forall r, In r (users (disk w)) -> user_row_checked r).
Proof.
  forget_env.
  induction 1 as [|w c Hr (He & Hi & Hc)|w fs Hr IH].
  - unfold emails_wf, user_ids_wf. cbn.
    repeat split; try apply NoDup_nil; try lia; intros r [].
  - pose proof (@run_call_users c w (proj1 (reachable_ok Hr))) as Hch.
    split; [eapply users_change_emails; eassumption|].
    split; [eapply users_change_ids; eassumption|].
    eapply users_change_checked; eassumption.
  - exact IH.
Qed.

(** ** The regular expressions *)












Lemma lstrip_length : forall s, (String.length (lstrip s) <= String.length s)%nat.
Proof.
  forget_env.
  induction s as [|c s IH]; simpl; auto.
  destruct (is_space c); simpl; lia.
Qed.





(** X8. Ids of accounts are never used again: in a reachable state
    every id is positive and at most the counter, a call never lowers
    the counter, and a row that a call adds has an id above it. *)
Theorem user_ids_never_reused :
  forall (w : world) (c : api_call),
    reachable w ->
    (forall r, In r (users (disk w)) -> 0 < u_id r <= users_seq (disk w)) /\
    users_seq (disk w) <= users_seq (disk (run_call c w)) /\
    (forall r, In r (users (disk (run_call c w))) ->
               ~ In (u_id r) (map u_id (users (disk w))) ->
               users_seq (disk w) < u_id r).
Proof.
  forget_env.
  intros w c Hr.
  destruct (reachable_users Hr) as (_ & Hi & _).
  pose proof (@run_call_users c w (proj1 (reachable_ok Hr))) as Hch.
  destruct (users_change_ids Hi Hch) as (_ & Hseq & Hnew).
  split; [apply Hi|]. split; assumption.
Qed.


End Store.

(* ================================================================== *)
(** * The properties on concrete data *)

Lemma demo_verify_own : forall salt pw,
    demo_verify (demo_hash salt pw) pw = Ok true.
Proof.
  intros salt pw. unfold demo_verify, demo_hash. rewrite String.eqb_refl.
  reflexivity.
Qed.

Lemma demo_verify_other : forall salt pw pw',
    pw' <> pw -> demo_verify (demo_hash salt pw) pw' = Raise VerifyMismatchError.
Proof.
  intros salt pw pw' Hne. unfold demo_verify, demo_hash.
  cbn [append String.eqb Ascii.eqb Bool.eqb].
  destruct (String.eqb_spec pw pw') as [E|E]; [congruence | reflexivity].
Qed.

(** The reset token of the example, looked up one and two minutes after
    it was issued: both lookups return its row.  This is the input on
    which single use fails. *)
Lemma reset_token_second_lookup_succeeds :
  create_reset_token 1 ex_urandom ex_now ex_cts (at_rest ex_db_alice)
    = (Ok ex_token, at_rest ex_db_token) /\
  get_reset_token ex_token (ex_now + timedelta_minutes 1) (at_rest ex_db_token)
    = (Ok (Some ex_reset), at_rest ex_db_token) /\
  get_reset_token ex_token (ex_now + timedelta_minutes 2) (at_rest ex_db_token)
    = (Ok (Some ex_reset), at_rest ex_db_token) /\
  fst (get_reset_token ex_token (ex_now + timedelta_minutes 2) (at_rest ex_db_token))
    <> Ok None.
Proof.
  repeat split; try (vm_compute; reflexivity).
  vm_compute. discriminate.
Qed.

Lemma reset_token_lookup_repeatable_witness :
  (txn (at_rest ex_db_alice) = disk (at_rest ex_db_alice) /\
   faults (at_rest ex_db_alice) = [] /\
   create_reset_token 1 ex_urandom ex_now ex_cts (at_rest ex_db_alice)
     = (Ok ex_token, at_rest ex_db_token) /\
   String.ltb (strftime (ex_now + timedelta_minutes 1))
     (strftime (ex_now + timedelta_hours 1)) = true /\
   String.ltb (strftime (ex_now + timedelta_minutes 2))
     (strftime (ex_now + timedelta_hours 1)) = true) /\
  exists row1 row2,
    get_reset_token ex_token (ex_now + timedelta_minutes 1) (at_rest ex_db_token)
      = (Ok (Some row1), at_rest ex_db_token) /\
    get_reset_token ex_token (ex_now + timedelta_minutes 2) (at_rest ex_db_token)
      = (Ok (Some row2), at_rest ex_db_token) /\
    token row1 = ex_token /\ token row2 = ex_token.
Proof.
  split.
  - repeat split; vm_compute; reflexivity.
  - apply (@reset_token_lookup_repeatable (at_rest ex_db_alice) 1 ex_urandom
             ex_now ex_cts ex_token (at_rest ex_db_token)
             (ex_now + timedelta_minutes 1) (ex_now + timedelta_minutes 2));
      vm_compute; reflexivity.
Defined.

Lemma quick_login_proceeds_after_invalid_2fa_witness :
  (authenticate_user demo_verify "alice" "correct horse" (conn ex_app)
     = (Ok (Some ex_alice), at_rest ex_db_alice) /\
   tfa_enabled (session ex_app) = true /\
   "123456" <> EmptyString /\
   tfa_secret (session ex_app) = Some "JBSWY3DPEHPK3PXP" /\
   demo_totp "JBSWY3DPEHPK3PXP" "123456" ex_now = false) /\
  exists r a',
    quick_login demo_verify demo_totp "alice" "correct horse" "123456" ex_now ex_app
      = (r, a') /\
    In (UiError "Invalid 2FA code.") (screen a') /\
    logged_in (session a') = true /\
    s_user_id (session a') = Some (u_id ex_alice) /\
    s_username (session a') = "alice" /\
    conn a' = at_rest ex_db_alice /\
    (r = Raise RerunException \/
     r = Raise (SwitchPageException (redirect_to (session ex_app)))).
Proof.
  split.
  - repeat split; try (vm_compute; reflexivity). discriminate.
  - apply (@quick_login_proceeds_after_invalid_2fa demo_verify demo_totp ex_app
             "alice" "correct horse" "123456" "JBSWY3DPEHPK3PXP" ex_now ex_alice
             (at_rest ex_db_alice));
      try (vm_compute; reflexivity).
    discriminate.
Defined.


Lemma delete_user_cascades_atomically_witness :
  txn (at_rest ex_db_full) = disk (at_rest ex_db_full) /\
  fst (delete_user 1 ex_now (at_rest ex_db_full)) = Ok tt /\
  disk (snd (delete_user 1 ex_now (at_rest ex_db_full))) = cascade 1 ex_db_full /\
  resets_of 1 (cascade 1 ex_db_full) = [] /\
  predictions_of 1 (cascade 1 ex_db_full) = [] /\
  patients_of 1 (cascade 1 ex_db_full) = [] /\
  users_with_id 1 (cascade 1 ex_db_full) = [] /\
  users (cascade 1 ex_db_full) = [ex_bob].
Proof.
  assert (txn (at_rest ex_db_full) = disk (at_rest ex_db_full)) as Ht
    by reflexivity.
  destruct (@delete_user_cascades_atomically (at_rest ex_db_full) 1 ex_now Ht)
    as (_ & _ & Hok & Hret & _ & P1 & P2 & P3 & P4).
  split; [exact Ht|].
  split; [apply Hret; reflexivity|].
  split; [apply Hok; apply Hret; reflexivity|].
  repeat split; try assumption.
Defined.

Lemma save_patient_data_rejects_witness :
  (In ("bmi", PFloat (-1.5))
      [("age", PInt 5); ("bmi", PFloat (-1.5)); ("high_bp", PInt 1)] /\
   (PFloat (-1.5) = PNone \/ negative_number (PFloat (-1.5)))) /\
  exists msg,
    save_patient_data 1 [("age", PInt 5); ("bmi", PFloat (-1.5)); ("high_bp", PInt 1)]
      ex_cts (at_rest ex_db_full) = (Raise (ValueError msg), at_rest ex_db_full) /\
    List.length
      (patients (disk (snd (save_patient_data 1
         [("age", PInt 5); ("bmi", PFloat (-1.5)); ("high_bp", PInt 1)]
         ex_cts (at_rest ex_db_full)))))
    = List.length (patients (disk (at_rest ex_db_full))).
Proof.
  assert (In ("bmi", PFloat (-1.5))
            [("age", PInt 5); ("bmi", PFloat (-1.5)); ("high_bp", PInt 1)]) as Hin
    by (simpl; auto).
  assert (PFloat (-1.5) = PNone \/ negative_number (PFloat (-1.5))) as Hneg
    by (right; constructor; vm_compute; reflexivity).
  split; [auto|].
  exact (@save_patient_data_rejects (at_rest ex_db_full) 1 _ ex_cts "bmi"
           (PFloat (-1.5)) Hin Hneg).
Defined.


Lemma authenticate_registered_user_witness :
  (txn (at_rest empty_db) = disk (at_rest empty_db) /\
   faults (at_rest empty_db) = [] /\
   register_user demo_hash "alice" "correct horse" "Alice@Example.org" []
     ex_cts (at_rest empty_db) = (Ok true, at_rest ex_db_alice)) /\
  authenticate_user demo_verify "alice" "correct horse" (at_rest ex_db_alice)
    = (Ok (Some ex_alice), at_rest ex_db_alice) /\
  authenticate_user demo_verify "alice" "wrong horse" (at_rest ex_db_alice)
    = (Ok None, at_rest ex_db_alice).
Proof.
  assert (users_wf (disk (at_rest empty_db))) as Hwf
    by (split; [constructor | intros r []]).
  assert (register_user demo_hash "alice" "correct horse" "Alice@Example.org" []
            ex_cts (at_rest empty_db) = (Ok true, at_rest ex_db_alice)) as Hreg
    by (vm_compute; reflexivity).
  split; [repeat split; exact Hreg|].
  destruct (@authenticate_registered_user demo_hash demo_verify
              demo_verify_own demo_verify_other (at_rest empty_db)
              "alice" "correct horse" "Alice@Example.org" [] ex_cts
              (at_rest ex_db_alice) eq_refl eq_refl Hwf Hreg)
    as (row & Hrows & _ & _ & Ht1 & Hf1 & Hwf1 & Hauth).
  assert (row = ex_alice) as ->.
  { cbn in Hrows. injection Hrows as <-. reflexivity. }
  destruct (Hauth (at_rest ex_db_alice) Ht1 Hf1 Hwf1 (or_introl eq_refl))
    as [Hgood Hbad].
  split; [exact Hgood|].
  apply Hbad. discriminate.
Defined.


Lemma prediction_probability_round_trip_witness :
  (txn (at_rest ex_db_full) = disk (at_rest ex_db_full) /\
   faults (at_rest ex_db_full) = [] /\
   0 < 1 /\ int64_ok 1 = true /\ "Diabetes" <> EmptyString /\
   strip "High Diabetes Risk" <> EmptyString /\
   re_match_anchored timestamp_re "2024-05-01 12:30:00" = true) /\
  exists w1 before rec,
    save_prediction (PInt 1) (PStr "Diabetes") (PFloat 73.5)
      (PStr "High Diabetes Risk") (PStr "2024-05-01 12:30:00") (at_rest ex_db_full)
      = (Ok tt, w1) /\
    get_user_predictions 1 None (at_rest ex_db_full) = (Ok before, at_rest ex_db_full) /\
    get_user_predictions 1 None w1 = (Ok (before ++ [rec])%list, w1) /\
    df_probability rec = 73.5%float /\
    df_user_id rec = 1 /\ df_prediction_type rec = "Diabetes" /\
    df_outcome rec = "High Diabetes Risk" /\
    df_timestamp rec = "2024-05-01 12:30:00".
Proof.
  assert (strip "High Diabetes Risk" <> EmptyString) as Hout
    by (vm_compute; discriminate).
  assert (re_match_anchored timestamp_re "2024-05-01 12:30:00" = true) as Hts
    by (vm_compute; reflexivity).
  split.
  - repeat split; try reflexivity; try assumption; discriminate.
  - apply (@prediction_probability_round_trip (at_rest ex_db_full) 1 "Diabetes"
             "High Diabetes Risk" "2024-05-01 12:30:00");
      try reflexivity; try assumption; discriminate.
Defined.

(* ================================================================== *)
(** * The further properties on concrete data *)

Lemma ex_db_alice_reachable : reachable demo_hash (at_rest ex_db_alice).
Proof.
  assert (run_call demo_hash
            (CallRegisterUser "alice" "correct horse" "Alice@Example.org" [] ex_cts)
            (at_rest empty_db) = at_rest ex_db_alice) as <-
    by (vm_compute; reflexivity).
  apply reach_call. apply reach_start.
Qed.

Lemma reissue_invalidates_old_token_witness :
  (create_reset_token 1 ex_urandom ex_now ex_cts (at_rest ex_db_alice)
     = (Ok ex_token, at_rest ex_db_token) /\
   ex_token <> ex_token2) /\
  get_reset_token ex_token (ex_now + timedelta_minutes 20)
    (snd (create_reset_token 1 ex_urandom2 (ex_now + timedelta_minutes 10) ex_cts
            (at_rest ex_db_token)))
  = (Ok None,
     snd (create_reset_token 1 ex_urandom2 (ex_now + timedelta_minutes 10) ex_cts
            (at_rest ex_db_token))).
Proof.
  assert (create_reset_token 1 ex_urandom ex_now ex_cts (at_rest ex_db_alice)
          = (Ok ex_token, at_rest ex_db_token)) as H1 by (vm_compute; reflexivity).
  assert (ex_token <> ex_token2) as Hne by (vm_compute; discriminate).
  split; [auto|].
  refine (proj1 (@reissue_invalidates_old_token (at_rest ex_db_alice)
                   (at_rest ex_db_token) _ 1 ex_urandom ex_urandom2 ex_now
                   (ex_now + timedelta_minutes 10) (ex_now + timedelta_minutes 20)
                   ex_cts ex_cts ex_token ex_token2 eq_refl eq_refl H1 _ Hne _)).
  - vm_compute. reflexivity.
  - intros r [].
Defined.

Lemma cleanup_removes_exactly_expired_witness :
  (txn (at_rest ex_db_full) = disk (at_rest ex_db_full) /\
   faults (at_rest ex_db_full) = []) /\
  map r_id (password_resets
              (disk (snd (cleanup_expired_tokens (ex_now + timedelta_minutes 60)
                            (at_rest ex_db_full))))) = [2] /\
  exists w',
    cleanup_expired_tokens (ex_now + timedelta_minutes 60) (at_rest ex_db_full)
      = (Ok tt, w') /\
    password_resets (disk w')
      = filter (fun r => String.ltb (strftime (ex_now + timedelta_minutes 60))
                           (expires_at r))
          (password_resets (disk (at_rest ex_db_full))).
Proof.
  split; [split; reflexivity|].
  split; [vm_compute; reflexivity|].
  destruct (@cleanup_removes_exactly_expired (at_rest ex_db_full)
              (ex_now + timedelta_minutes 60) eq_refl eq_refl)
    as (w' & Hrun & Hrows & _).
  exists w'. split; assumption.
Defined.

Lemma delete_user_spares_others_witness :
  (txn (at_rest ex_db_full) = disk (at_rest ex_db_full) /\
   faults (at_rest ex_db_full) = [] /\ 2 <> 1) /\
  exists w',
    delete_user 1 ex_now (at_rest ex_db_full) = (Ok tt, w') /\
    resets_of 2 (disk w') = resets_of 2 ex_db_full /\
    predictions_of 2 (disk w') = predictions_of 2 ex_db_full /\
    patients_of 2 (disk w') = patients_of 2 ex_db_full /\
    users_with_id 2 (disk w') = [ex_bob] /\
    authenticate_user demo_verify "alice" "correct horse" w' = (Ok None, w').
Proof.
  split; [repeat split; discriminate|].
  destruct (@delete_user_spares_others demo_verify (at_rest ex_db_full) 1 ex_now
              eq_refl eq_refl) as (w' & Hrun & Hothers & Hclosed).
  exists w'. split; [exact Hrun|].
  destruct (Hothers 2) as (H1 & H2 & H3 & H4); [discriminate|].
  repeat split; try assumption.
  apply (Hclosed ex_alice "correct horse").
  - split.
    + cbn. repeat constructor; simpl; intuition discriminate.
    + intros r [<-|[<-|[]]]; reflexivity.
  - simpl. auto.
  - reflexivity.
Defined.

Lemma update_user_theme_round_trip_witness :
  (txn (at_rest ex_db_full) = disk (at_rest ex_db_full) /\
   faults (at_rest ex_db_full) = []) /\
  (exists msg, update_user_theme 1 "blue" (at_rest ex_db_full)
               = (Raise (ValueError msg), at_rest ex_db_full)) /\
  exists w',
    update_user_theme 1 "dark" (at_rest ex_db_full) = (Ok tt, w') /\
    authenticate_user demo_verify "alice" "correct horse" w'
      = (Ok (Some (with_theme "dark" ex_alice)), w').
Proof.
  split; [split; reflexivity|].
  destruct (@update_user_theme_round_trip demo_hash demo_verify demo_verify_own
              (at_rest ex_db_full) 1 "blue" eq_refl eq_refl) as (Hbad & _).
  split; [apply Hbad; discriminate|].
  destruct (@update_user_theme_round_trip demo_hash demo_verify demo_verify_own
              (at_rest ex_db_full) 1 "dark" eq_refl eq_refl) as (_ & Hgood).
  destruct (Hgood (or_intror eq_refl)) as (w' & Hrun & _ & _ & _ & _ & Hauth).
  exists w'. split; [exact Hrun|].
  apply (Hauth ex_alice [] "correct horse").
  - split.
    + cbn. repeat constructor; simpl; intuition discriminate.
    + intros r [<-|[<-|[]]]; reflexivity.
  - simpl. auto.
  - reflexivity.
  - reflexivity.
Defined.

Lemma register_user_twice_witness :
  (txn (at_rest empty_db) = disk (at_rest empty_db) /\
   faults (at_rest empty_db) = [] /\
   register_user demo_hash "alice" "correct horse" "Alice@Example.org" [] ex_cts
     (at_rest empty_db) = (Ok true, at_rest ex_db_alice)) /\
  register_user demo_hash "alice" "correct horse" "Alice@Example.org" [x01] ex_cts
    (at_rest ex_db_alice) = (Ok false, at_rest ex_db_alice) /\
  List.length (users_named (strip "alice") (disk (at_rest ex_db_alice))) = 1%nat /\
  List.length (users (disk (at_rest ex_db_alice)))
    = S (List.length (users (disk (at_rest empty_db)))).
Proof.
  assert (register_user demo_hash "alice" "correct horse" "Alice@Example.org" []
            ex_cts (at_rest empty_db) = (Ok true, at_rest ex_db_alice)) as Hreg
    by (vm_compute; reflexivity).
  split; [repeat split; exact Hreg|].
  exact (@register_user_twice demo_hash (at_rest empty_db) (at_rest ex_db_alice)
           "alice" "correct horse" "Alice@Example.org" [] [x01] ex_cts ex_cts
           eq_refl eq_refl Hreg).
Defined.


Lemma user_ids_never_reused_witness :
  reachable demo_hash (at_rest ex_db_alice) /\
  users_seq (disk (at_rest ex_db_alice))
    <= users_seq (disk (run_call demo_hash (CallDeleteUser 1 ex_now)
                          (at_rest ex_db_alice))) /\
  users (disk (run_call demo_hash (CallDeleteUser 1 ex_now) (at_rest ex_db_alice)))
    = [].
Proof.
  split; [exact ex_db_alice_reachable|].
  destruct (@user_ids_never_reused demo_hash (at_rest ex_db_alice)
              (CallDeleteUser 1 ex_now) ex_db_alice_reachable) as (_ & Hseq & _).
  split; [exact Hseq | vm_compute; reflexivity].
Defined.

